(** * Stream-distance calibration of RBA survey data (PSU-GEOG510 final project)

    A shallow embedding of the three Python 2 scripts of [FinalProject]:

    - [define_RBA_dist_adj_factors.py]: the builder of the table of
      adjustment factors ([build_streamlength_adjustment_factor_dictionary],
      [new_syncpt_using_survey_dist], [compute_xy_sync_point],
      [compute_adj_factor]);
    - [RBA_georef_util.py]: the data classes and the CSV codec
      ([write_sdi_to_csv_file], [read_sdi_from_csvfile], [expand_sync_pt],
      [chain_data_two_levels], [parse_float_or_NA], ...);
    - [georef_RBA_survey_data.py]: the referencer
      ([adjust_stream_distance], [georeference_survey_data]).

    Modelling decisions.

    - Python [int] is [Z]. Python [float] is a type [F] with the operations
      of the class [PyFloat]; the code is embedded once, for every [F], and
      two instances are given: IEEE binary64 ([float], the arithmetic the
      scripts really run on) and exact rationals ([Qc], the arithmetic the
      formulas are written for).
    - A Python exception is a value of [PyError]; a function that can raise
      returns a [Result].
    - A [dict] keyed by strings is a [gmap string _].
    - arcpy is an interface ([GeometryProvider]); the conversions between
      numbers and text done by the Python runtime are an interface too
      ([PyText]).
    - A survey row is the [namedtuple] of the script after the conversions
      [int(row.CUM_DIST)] and [get_pool_XY_coords(row)]; a row of the
      adjustment-factor file is the list of its cells, as [csv.reader]
      yields them. *)

From Stdlib Require Import ZArith QArith Qcanon String Ascii.
From Stdlib Require Import PrimFloat SpecFloat FloatOps.
From Stdlib Require Import DecimalString DecimalZ DecimalPos.
From stdpp Require Import gmap strings list sorting.

Local Open Scope Z_scope.

(** ** Exceptions *)

Inductive PyError : Set :=
| ZeroDivisionError
| KeyError
| IndexError
| AttributeError
| UnboundLocalError
| ValueError
| TypeError
| StopIteration.

(** [KeyError] and [IndexError] are the two subclasses of Python's
    [LookupError]. *)
Definition is_LookupError (e : PyError) : bool :=
  match e with
  | KeyError | IndexError => true
  | _ => false
  end.

Inductive Result (A : Type) : Type :=
| Ok (a : A)
| Raise (e : PyError).

Arguments Ok {A} a.
Arguments Raise {A} e.

#[export] Instance Result_ret : MRet Result := fun A a => Ok a.

#[export] Instance Result_bind : MBind Result := fun A B k r =>
  match r with
  | Ok a => k a
  | Raise e => Raise e
  end.

(** [d[key]] *)
Definition dict_getitem {V : Type} (d : gmap string V) (key : string) : Result V :=
  match d !! key with
  | Some v => Ok v
  | None => Raise KeyError
  end.

(** ** Floats *)

Class PyFloat (F : Type) : Type := {
  float_of_int : Z -> F;      (* the coercion of an int operand, [float(n)] *)
  float_add : F -> F -> F;
  float_sub : F -> F -> F;
  float_mul : F -> F -> F;
  float_div : F -> F -> F     (* the divisor is not zero: checked by the caller *)
}.

(** Exact arithmetic. *)
#[export] Instance Qc_PyFloat : PyFloat Qc := {
  float_of_int := fun z => Q2Qc (inject_Z z);
  float_add := Qcplus;
  float_sub := Qcminus;
  float_mul := Qcmult;
  float_div := Qcdiv
}.

(** IEEE 754 binary64, round to nearest even: the integer is rounded to the
    nearest double as CPython does. *)
Definition binary64_of_Z (z : Z) : float :=
  SF2Prim (binary_normalize 53 1024 z 0 false).

#[export] Instance IEEE_PyFloat : PyFloat float := {
  float_of_int := binary64_of_Z;
  float_add := PrimFloat.add;
  float_sub := PrimFloat.sub;
  float_mul := PrimFloat.mul;
  float_div := PrimFloat.div
}.

(** ** Global constants *)

Definition DEFAULT_ADJ_FACTOR {F : Type} {PF : PyFloat F} : F := float_of_int 1.
Definition DEFAULT_BEGIN_DIST : Z := 0.
Definition DEFAULT_END_DIST : Z := 999999.

(** ** Classes of [RBA_georef_util] *)

Record SyncPoint (F : Type) : Type := {
  x_coord : option F;
  y_coord : option F;
  xy_note : string;
  survey_cum_dist : Z;
  streamline_cum_dist : F;
  survey_comment : string
}.

Arguments x_coord {F} _.
Arguments y_coord {F} _.
Arguments xy_note {F} _.
Arguments survey_cum_dist {F} _.
Arguments streamline_cum_dist {F} _.
Arguments survey_comment {F} _.

(** One adjustment factor: the tuple
    [(begin_sync_point, end_sync_point, adj_factor)]; the end is [None] for
    the open end of a stream. *)
Definition AdjFactor (F : Type) : Type := (SyncPoint F * option (SyncPoint F) * F)%type.

Definition af_begin {F : Type} (factor : AdjFactor F) : SyncPoint F := factor.1.1.
Definition af_end {F : Type} (factor : AdjFactor F) : option (SyncPoint F) := factor.1.2.
Definition af_factor {F : Type} (factor : AdjFactor F) : F := factor.2.

Record StreamDistanceInfo (F : Type) : Type := {
  llid : string;
  name : string;
  trib_to : string;
  adj_factors : list (AdjFactor F)
}.

Arguments llid {F} _.
Arguments name {F} _.
Arguments trib_to {F} _.
Arguments adj_factors {F} _.

Definition new_sdi_object {F : Type} (llid streamname trib_to : string)
    (adj_factors : list (AdjFactor F)) : StreamDistanceInfo F :=
  {| llid := llid; name := streamname; trib_to := trib_to;
     adj_factors := adj_factors |}.

(** [sdi_obj.adj_factors = adj_factors] *)
Definition set_adj_factors {F : Type} (adj_factors : list (AdjFactor F))
    (sdi_obj : StreamDistanceInfo F) : StreamDistanceInfo F :=
  {| llid := llid sdi_obj; name := name sdi_obj; trib_to := trib_to sdi_obj;
     adj_factors := adj_factors |}.

Definition add_adj_factors_to_sdi {F : Type}
    (adj_factor_dictionary : gmap string (StreamDistanceInfo F))
    (llid : string) (adj_factors : list (AdjFactor F))
  : Result (gmap string (StreamDistanceInfo F)) :=
  sdi_obj ← dict_getitem adj_factor_dictionary llid;
  Ok (<[llid := set_adj_factors adj_factors sdi_obj]> adj_factor_dictionary).

Definition create_syncpoint {F : Type} (in_x_coord in_y_coord : option F)
    (xy_note : string) (survey_cum_dist : Z) (streamline_cum_dist : F)
    (survey_comment : string) : SyncPoint F :=
  {| x_coord := in_x_coord; y_coord := in_y_coord; xy_note := xy_note;
     survey_cum_dist := survey_cum_dist;
     streamline_cum_dist := streamline_cum_dist;
     survey_comment := survey_comment |}.

(** ** arcpy *)

(** The streams feature class and the geometry of a stream.
    [SearchCursor llid] is the list of the shapes selected by the where clause
    [LocationID = 'llid']; [queryPointAndDistance geom lat_long x y] is the
    distance along [geom] of the point of [geom] nearest to [(x, y)], the
    coordinates being first projected from latitude and longitude when
    [lat_long] is set. *)
Class GeometryProvider (F : Type) : Type := {
  Geom : Type;
  SearchCursor : string -> list Geom;
  queryPointAndDistance : Geom -> bool -> F -> F -> F
}.

Definition get_stream_geom {F : Type} {GP : GeometryProvider F} (llid : string)
  : Result Geom :=
  match SearchCursor llid with
  | [] => Raise IndexError              (* selected[0] of an empty list *)
  | first :: _ => Ok first              (* several matches: a warning *)
  end.

(** ** Survey data *)

(** A row of the survey file, with the columns the scripts use. [CUM_DIST] is
    [int(row.CUM_DIST)]; [X] and [Y] are the result of
    [get_pool_XY_coords(row)]: [None] for an empty cell, else its [float]. *)
Record SurveyRow (F : Type) : Type := {
  LLID_num : string;
  STREAM : string;
  TRIB_TO : string;
  CUM_DIST : Z;
  X : option F;
  Y : option F;
  XY_Note : string;
  COMMENT : string
}.

Arguments LLID_num {F} _.
Arguments STREAM {F} _.
Arguments TRIB_TO {F} _.
Arguments CUM_DIST {F} _.
Arguments X {F} _.
Arguments Y {F} _.
Arguments XY_Note {F} _.
Arguments COMMENT {F} _.

Definition get_pool_XY_coords {F : Type} (row : SurveyRow F) : option F * option F :=
  (X row, Y row).

(** ** The builder: [define_RBA_dist_adj_factors] *)

Section Builder.
Context {F : Type} {PF : PyFloat F} {GP : GeometryProvider F}.

Definition new_syncpt_using_survey_dist (pool_cum_dist : Z)
    (xy_note survey_comment : string) : SyncPoint F :=
  {| survey_cum_dist := pool_cum_dist;
     streamline_cum_dist := float_of_int pool_cum_dist;
     x_coord := None;
     y_coord := None;
     xy_note := xy_note;
     survey_comment := survey_comment |}.

Definition compute_xy_sync_point (stream_geom : Geom) (in_x_coord in_y_coord : F)
    (survey_cum_dist : Z) (xy_note survey_comment : string)
    (sync_coords_in_lat_long : bool) : SyncPoint F :=
  let streamline_cum_dist :=
    queryPointAndDistance stream_geom sync_coords_in_lat_long in_x_coord in_y_coord in
  {| survey_cum_dist := survey_cum_dist;
     streamline_cum_dist := streamline_cum_dist;
     x_coord := Some in_x_coord;
     y_coord := Some in_y_coord;
     xy_note := xy_note;
     survey_comment := survey_comment |}.

(** The quotient is a true division: its numerator is a float. Python raises
    [ZeroDivisionError] when the divisor, the difference of the two survey
    distances, is zero. *)
Definition compute_adj_factor (begin_sync_point : SyncPoint F)
    (end_sync_point : option (SyncPoint F)) : Result F :=
  match end_sync_point with
  | Some end_sync_point =>
      let divisor :=
        survey_cum_dist end_sync_point - survey_cum_dist begin_sync_point in
      if divisor =? 0 then Raise ZeroDivisionError
      else Ok (float_div
                 (float_sub (streamline_cum_dist end_sync_point)
                            (streamline_cum_dist begin_sync_point))
                 (float_of_int divisor))
  | None => Ok DEFAULT_ADJ_FACTOR
  end.

(** The local variables of [build_streamlength_adjustment_factor_dictionary].
    [begin_sync_point] and [stream_geom] are unbound ([None]) until the first
    stream is met; [end_sync_point] is [None] when Python holds [None]. *)
Record BuildState : Type := {
  b_dict : gmap string (StreamDistanceInfo F);
  b_adj_factors : list (AdjFactor F);
  b_prev_llid : string;
  b_need_adj_factor : bool;
  b_stream_geom : option Geom;
  b_begin_sync_point : option (SyncPoint F);
  b_end_sync_point : option (SyncPoint F)
}.

Definition build_init : BuildState :=
  {| b_dict := ∅; b_adj_factors := []; b_prev_llid := "";
     b_need_adj_factor := false; b_stream_geom := None;
     b_begin_sync_point := None; b_end_sync_point := None |}.

(** Reading a local variable that may be unbound. *)
Definition local {A : Type} (v : option A) : Result A :=
  match v with
  | Some a => Ok a
  | None => Raise UnboundLocalError
  end.

(** [if need_adj_factor: adj_factors.append((begin_sync_point, None, ...))]:
    the list of the stream that ends here. *)
Definition final_adj_factors (st : BuildState) : Result (list (AdjFactor F)) :=
  if b_need_adj_factor st then
    begin_sync_point ← local (b_begin_sync_point st);
    adj_factor ← compute_adj_factor begin_sync_point None;
    Ok (b_adj_factors st ++ [(begin_sync_point, None, adj_factor)])
  else Ok (b_adj_factors st).

(** The list [adj_factors] is the very object held by the dictionary entry of
    the current stream ([new_sdi_object] stores the list itself), so an
    [append] shows in the entry. *)
Definition append_shared (d : gmap string (StreamDistanceInfo F)) (llid : string)
    (adj_factors : list (AdjFactor F)) : gmap string (StreamDistanceInfo F) :=
  alter (set_adj_factors adj_factors) llid d.

(** The body of the loop over the rows of the survey file. *)
Definition build_row (sync_coords_in_lat_long : bool) (st : BuildState)
    (row : SurveyRow F) : Result BuildState :=
  let new_llid := LLID_num row in
  if decide (new_llid = "") then Ok st          (* logged, row skipped *)
  else
    let '(pool_x_coord, pool_y_coord) := get_pool_XY_coords row in
    let pool_cum_dist := CUM_DIST row in
    let xy_note := XY_Note row in
    let survey_comment := COMMENT row in
    let streamname := STREAM row in
    let trib_to := TRIB_TO row in
    if decide (new_llid ≠ b_prev_llid st) then
      (* New stream data *)
      d ← (if decide (b_prev_llid st ≠ "") then
             adj_factors ← final_adj_factors st;
             add_adj_factors_to_sdi (b_dict st) (b_prev_llid st) adj_factors
           else Ok (b_dict st));
      let adj_factors := [] in
      let d := <[new_llid := new_sdi_object new_llid streamname trib_to adj_factors]> d in
      stream_geom ← get_stream_geom new_llid;
      let begin_sync_point :=
        match pool_x_coord, pool_y_coord with
        | Some x, Some y =>
            compute_xy_sync_point stream_geom x y pool_cum_dist xy_note
              survey_comment sync_coords_in_lat_long
        | _, _ => new_syncpt_using_survey_dist pool_cum_dist xy_note survey_comment
        end in
      Ok {| b_dict := d; b_adj_factors := adj_factors; b_prev_llid := new_llid;
            b_need_adj_factor := true; b_stream_geom := Some stream_geom;
            b_begin_sync_point := Some begin_sync_point;
            b_end_sync_point := Some begin_sync_point |}
    else
      (* Data for another pool on the same stream *)
      match pool_x_coord, pool_y_coord with
      | Some x, Some y =>
          stream_geom ← local (b_stream_geom st);
          let end_sync_point :=
            compute_xy_sync_point stream_geom x y pool_cum_dist xy_note
              survey_comment sync_coords_in_lat_long in
          begin_sync_point ← local (b_begin_sync_point st);
          adj_factor ← compute_adj_factor begin_sync_point (Some end_sync_point);
          let adj_factors :=
            b_adj_factors st ++ [(begin_sync_point, Some end_sync_point, adj_factor)] in
          Ok {| b_dict := append_shared (b_dict st) (b_prev_llid st) adj_factors;
                b_adj_factors := adj_factors; b_prev_llid := b_prev_llid st;
                b_need_adj_factor := false; b_stream_geom := b_stream_geom st;
                b_begin_sync_point := Some end_sync_point;
                b_end_sync_point := Some end_sync_point |}
      | _, _ =>
          (* No xy coord given for this pool *)
          Ok {| b_dict := b_dict st; b_adj_factors := b_adj_factors st;
                b_prev_llid := b_prev_llid st; b_need_adj_factor := true;
                b_stream_geom := b_stream_geom st;
                b_begin_sync_point := b_begin_sync_point st;
                b_end_sync_point := None |}
      end.

Fixpoint build_rows (sync_coords_in_lat_long : bool) (rows : list (SurveyRow F))
    (st : BuildState) : Result BuildState :=
  match rows with
  | [] => Ok st
  | row :: rows =>
      st ← build_row sync_coords_in_lat_long st row;
      build_rows sync_coords_in_lat_long rows st
  end.

(** [in_csv] is the list of the data rows of [in_csv_filename]; the feature
    class [streams_pathname] is the [GeometryProvider]. *)
Definition build_streamlength_adjustment_factor_dictionary
    (in_csv : list (SurveyRow F)) (sync_coords_in_lat_long : bool)
  : Result (gmap string (StreamDistanceInfo F)) :=
  st ← build_rows sync_coords_in_lat_long in_csv build_init;
  (* End of file: tie up processing for last stream *)
  adj_factors ← final_adj_factors st;
  add_adj_factors_to_sdi (b_dict st) (b_prev_llid st) adj_factors.

End Builder.

(** ** The referencer: [georef_RBA_survey_data] *)

Section Referencer.
Context {F : Type} {PF : PyFloat F}.

(** [begin_sync_pt_dist <= survey_dist <= end_sync_pt_dist] *)
Definition in_segment (begin_sync_pt_dist survey_dist end_sync_pt_dist : Z) : bool :=
  (begin_sync_pt_dist <=? survey_dist) && (survey_dist <=? end_sync_pt_dist).

(** The [for] loop of [adjust_stream_distance]. [begins] holds the locals
    [begin_sync_pt_dist] and [begin_streamline_pt_dist], unbound before the
    first iteration and left as the last iteration set them; the result is
    the value of the locals when the loop ends, by [break] or not.
    [factor[1].survey_cum_dist] raises [AttributeError] when the end of the
    segment is [None]. *)
Fixpoint adjust_loop (survey_dist : Z) (stream_adj_factors : list (AdjFactor F))
    (begins : option (Z * F)) (adj_factor : F) : Result (option (Z * F) * F) :=
  match stream_adj_factors with
  | [] => Ok (begins, adj_factor)
  | factor :: stream_adj_factors =>
      let begin_sync_pt_dist := survey_cum_dist (af_begin factor) in
      let begin_streamline_pt_dist := streamline_cum_dist (af_begin factor) in
      match af_end factor with
      | None => Raise AttributeError
      | Some end_sync_pt =>
          let end_sync_pt_dist := survey_cum_dist end_sync_pt in
          if in_segment begin_sync_pt_dist survey_dist end_sync_pt_dist
          then Ok (Some (begin_sync_pt_dist, begin_streamline_pt_dist),
                   af_factor factor)                                  (* break *)
          else adjust_loop survey_dist stream_adj_factors
                 (Some (begin_sync_pt_dist, begin_streamline_pt_dist)) adj_factor
      end
  end.

Definition adjust_stream_distance (survey_dist : Z)
    (stream_adj_factors : list (AdjFactor F)) : Result F :=
  locals ← adjust_loop survey_dist stream_adj_factors None DEFAULT_ADJ_FACTOR;
  let '(begins, adj_factor) := locals in
  begins ← local begins;
  let '(begin_sync_pt_dist, begin_streamline_pt_dist) := begins in
  Ok (float_add begin_streamline_pt_dist
        (float_mul (float_of_int (survey_dist - begin_sync_pt_dist)) adj_factor)).

(** The distance referencer of one survey distance on one stream: the lookup
    [stream_dist_info_dict[new_llid].adj_factors] followed by
    [adjust_stream_distance], as [georeference_survey_data] does for a row. *)
Definition resolve (stream_dist_info_dict : gmap string (StreamDistanceInfo F))
    (new_llid : string) (pool_cum_dist : Z) : Result F :=
  sdi_obj ← dict_getitem stream_dist_info_dict new_llid;
  adjust_stream_distance pool_cum_dist (adj_factors sdi_obj).

Context {GP : GeometryProvider F}.

(** The locals of [georeference_survey_data] and the distances handed to
    [create_point_upstream], one for each row that is not skipped. *)
Record GeorefState : Type := {
  g_prev_llid : string;
  g_stream_adj_factors : option (list (AdjFactor F));
  g_stream_geom : option Geom;
  g_points : list (string * F)
}.

Definition georef_init : GeorefState :=
  {| g_prev_llid := ""; g_stream_adj_factors := None; g_stream_geom := None;
     g_points := [] |}.

Definition georef_row (stream_dist_info_dict : gmap string (StreamDistanceInfo F))
    (st : GeorefState) (row : SurveyRow F) : Result GeorefState :=
  let new_llid := LLID_num row in
  let pool_cum_dist := CUM_DIST row in
  if decide (new_llid = "") then Ok st          (* logged, row skipped *)
  else
    st ← (if decide (new_llid ≠ g_prev_llid st) then
            sdi_obj ← dict_getitem stream_dist_info_dict new_llid;
            stream_geom ← get_stream_geom new_llid;
            Ok {| g_prev_llid := new_llid;
                  g_stream_adj_factors := Some (adj_factors sdi_obj);
                  g_stream_geom := Some stream_geom;
                  g_points := g_points st |}
          else Ok st);
    stream_adj_factors ← local (g_stream_adj_factors st);
    adjusted_distance ← adjust_stream_distance pool_cum_dist stream_adj_factors;
    Ok {| g_prev_llid := g_prev_llid st;
          g_stream_adj_factors := g_stream_adj_factors st;
          g_stream_geom := g_stream_geom st;
          g_points := g_points st ++ [(new_llid, adjusted_distance)] |}.

Fixpoint georef_rows (stream_dist_info_dict : gmap string (StreamDistanceInfo F))
    (rows : list (SurveyRow F)) (st : GeorefState) : Result GeorefState :=
  match rows with
  | [] => Ok st
  | row :: rows =>
      st ← georef_row stream_dist_info_dict st row;
      georef_rows stream_dist_info_dict rows st
  end.

Definition georeference_survey_data (survey_data : list (SurveyRow F))
    (stream_dist_info_dict : gmap string (StreamDistanceInfo F))
  : Result (list (string * F)) :=
  st ← georef_rows stream_dist_info_dict survey_data georef_init;
  Ok (g_points st).

End Referencer.

(** ** The codec: [RBA_georef_util] *)

(** The text of numbers: [str_int n] is the text [csv.writer] writes for the
    int [n], [repr_float x] the text it writes for the float [x];
    [int_of_str s] is [int(s)] and [float_of_str s] is [float(s)], [None]
    standing for [ValueError]. *)
Class PyText (F : Type) : Type := {
  str_int : Z -> string;
  repr_float : F -> string;
  int_of_str : string -> option Z;
  float_of_str : string -> option F
}.

(** What the scripts rely on: reading a number back gives the number
    written. *)
Record PyTextLaws (F : Type) {PF : PyFloat F} {PT : PyText F} : Prop := {
  int_of_str_int : forall n : Z, int_of_str (str_int n) = Some n;
  float_of_repr : forall x : F, float_of_str (repr_float x) = Some x;
  float_of_str_int : forall n : Z, float_of_str (str_int n) = Some (float_of_int n);
  repr_float_nonempty : forall x : F, repr_float x ≠ ""
}.

(** Column headers *)
Definition LLID : string := "LocationID".
Definition STREAMNAME : string := "Stream_Name".
Definition TRIB_TO_ : string := "Trib_To".
Definition BEGIN_ : string := "Begin_".
Definition END_ : string := "End_".
Definition X_COORD : string := "X_coord".
Definition Y_COORD : string := "Y_coord".
Definition XY_NOTE : string := "XY_Note".
Definition SURVEY_CUM_DISTANCE : string := "Survey_Cum_Dist".
Definition STREAMLINE_CUM_DISTANCE : string := "Streamline_Cum_Dist".
Definition SURVEY_COMMENT : string := "Comment".
Definition ADJ_FACTOR : string := "Adj_Factor".

Definition fieldnames : list string :=
  [LLID; STREAMNAME; TRIB_TO_;
   BEGIN_ +:+ SURVEY_CUM_DISTANCE;
   BEGIN_ +:+ STREAMLINE_CUM_DISTANCE;
   BEGIN_ +:+ X_COORD; BEGIN_ +:+ Y_COORD;
   BEGIN_ +:+ XY_NOTE;
   BEGIN_ +:+ SURVEY_COMMENT;
   END_ +:+ SURVEY_CUM_DISTANCE;
   END_ +:+ STREAMLINE_CUM_DISTANCE;
   END_ +:+ X_COORD; END_ +:+ Y_COORD;
   END_ +:+ XY_NOTE;
   END_ +:+ SURVEY_COMMENT;
   ADJ_FACTOR].

(** A value handed to [csv.writer]. *)
Inductive PyVal (F : Type) : Type :=
| PStr (s : string)
| PInt (n : Z)
| PFloat (x : F)
| PNone.

Arguments PStr {F} s.
Arguments PInt {F} n.
Arguments PFloat {F} x.
Arguments PNone {F}.

(** An argument of [chain_data_two_levels]: a value or a tuple of values. *)
Inductive Element (F : Type) : Type :=
| Scalar (v : PyVal F)
| Tuple (elem : list (PyVal F)).

Arguments Scalar {F} v.
Arguments Tuple {F} elem.

(** [s.replace("'", "")] *)
Fixpoint replace_quote (s : string) : string :=
  match s with
  | EmptyString => EmptyString
  | String c s => if Ascii.eqb c "'" then replace_quote s else String c (replace_quote s)
  end.

(** ["'{}'".format(stream_id)] *)
Definition format_quoted (stream_id : string) : string := "'" +:+ stream_id +:+ "'".

(** The order of [sorted] on Python 2 strings: byte by byte. *)
Definition str_le (s1 s2 : string) : Prop := String.leb s1 s2 = true.

#[export] Instance str_le_dec : RelDecision str_le.
Proof. intros s1 s2. unfold str_le. apply _. Defined.

Definition sorted {V : Type} (d : gmap string V) : list string :=
  merge_sort str_le (map_to_list d).*1.

Section Codec.
Context {F : Type} {PF : PyFloat F} {PT : PyText F}.

(** The text [csv.writer] writes for a value: a string as it is, [None] as
    the empty string. The quoting of the cells by [csv.writer] is undone by
    [csv.reader]: a file is the list of its rows, a row the list of its
    cells. *)
Definition csv_cell (v : PyVal F) : string :=
  match v with
  | PStr s => s
  | PInt n => str_int n
  | PFloat x => repr_float x
  | PNone => ""
  end.

Definition float_or_None (v : option F) : PyVal F :=
  match v with
  | Some x => PFloat x
  | None => PNone
  end.

Definition expand_sync_pt (sync_pt : option (SyncPoint F)) (default_distance : Z)
  : list (PyVal F) :=
  match sync_pt with
  | None =>
      [PInt default_distance; PInt default_distance; PStr ""; PStr ""; PStr ""; PStr ""]
  | Some sync_pt =>
      [PInt (survey_cum_dist sync_pt);
       PFloat (streamline_cum_dist sync_pt);
       float_or_None (x_coord sync_pt);
       float_or_None (y_coord sync_pt);
       PStr (xy_note sync_pt);
       PStr (survey_comment sync_pt)]
  end.

Fixpoint chain_data_two_levels (elements : list (Element F)) : list (PyVal F) :=
  match elements with
  | [] => []
  | Scalar v :: elements => v :: chain_data_two_levels elements
  | Tuple elem :: elements => elem ++ chain_data_two_levels elements
  end.

(** The row written for one adjustment factor of a stream. *)
Definition sdi_row (stream_id : string) (sdi_obj : StreamDistanceInfo F)
    (factor : AdjFactor F) : list string :=
  let '(begin_sync_pt, end_sync_pt, adj_factor) := factor in
  csv_cell <$>
    chain_data_two_levels
      [Scalar (PStr (format_quoted stream_id));
       Scalar (PStr (name sdi_obj));
       Scalar (PStr (trib_to sdi_obj));
       Tuple (expand_sync_pt (Some begin_sync_pt) DEFAULT_BEGIN_DIST);
       Tuple (expand_sync_pt end_sync_pt DEFAULT_END_DIST);
       Scalar (PFloat adj_factor)].

(** The rows written for one stream; [sdi_dict[stream_id]] cannot fail for a
    key of the dictionary. *)
Definition sdi_rows (sdi_dict : gmap string (StreamDistanceInfo F))
    (stream_id : string) : list (list string) :=
  match sdi_dict !! stream_id with
  | Some sdi_obj => sdi_row stream_id sdi_obj <$> adj_factors sdi_obj
  | None => []
  end.

(** The content of the file at [sdi_filepath] after the call. *)
Definition write_sdi_to_csv_file (sdi_dict : gmap string (StreamDistanceInfo F))
  : list (list string) :=
  fieldnames :: (sorted sdi_dict ≫= sdi_rows sdi_dict).

(** The namedtuple [Row] of [headings] applied to the cells of [r]: the
    cells by name. *)
Definition Row (headings : list string) (r : list string)
  : Result (list (string * string)) :=
  if decide (length r = length headings) then Ok (zip headings r)
  else Raise TypeError.

(** [row.field] *)
Fixpoint getattr (row : list (string * string)) (field : string) : Result string :=
  match row with
  | [] => Raise AttributeError
  | (heading, cell) :: row =>
      if decide (heading = field) then Ok cell else getattr row field
  end.

(** [int(s)] *)
Definition py_int (s : string) : Result Z :=
  match int_of_str s with
  | Some n => Ok n
  | None => Raise ValueError
  end.

(** [float(s)] *)
Definition py_float (s : string) : Result F :=
  match float_of_str s with
  | Some x => Ok x
  | None => Raise ValueError
  end.

Definition parse_float_or_NA (read_value : string) : Result (option F) :=
  if decide (read_value = "") then Ok None
  else x ← py_float read_value; Ok (Some x).

(** The two sync points and the factor of a row: the arguments are evaluated
    from left to right. *)
Definition read_sync_pt (row : list (string * string)) (prefix : string)
  : Result (SyncPoint F) :=
  c ← getattr row (prefix +:+ X_COORD);
  in_x_coord ← parse_float_or_NA c;
  c ← getattr row (prefix +:+ Y_COORD);
  in_y_coord ← parse_float_or_NA c;
  xy_note ← getattr row (prefix +:+ XY_NOTE);
  c ← getattr row (prefix +:+ SURVEY_CUM_DISTANCE);
  survey_cum_dist ← py_int c;
  c ← getattr row (prefix +:+ STREAMLINE_CUM_DISTANCE);
  streamline_cum_dist ← py_float c;
  survey_comment ← getattr row (prefix +:+ SURVEY_COMMENT);
  Ok (create_syncpoint in_x_coord in_y_coord xy_note survey_cum_dist
        streamline_cum_dist survey_comment).

Definition read_adj_factor (row : list (string * string)) : Result (AdjFactor F) :=
  begin_sync_pt ← read_sync_pt row BEGIN_;
  end_sync_pt ← read_sync_pt row END_;
  c ← getattr row ADJ_FACTOR;
  adj_factor ← py_float c;
  Ok (begin_sync_pt, Some end_sync_pt, adj_factor).

(** [new_llid = str(row.LocationID).replace("'", "")] *)
Definition read_llid (row : list (string * string)) : Result string :=
  c ← getattr row LLID;
  Ok (replace_quote c).

(** The locals of [read_sdi_from_csvfile]. *)
Record ReadState : Type := {
  r_dict : gmap string (StreamDistanceInfo F);
  r_adj_factors : list (AdjFactor F);
  r_prev_llid : string
}.

Definition read_init : ReadState :=
  {| r_dict := ∅; r_adj_factors := []; r_prev_llid := "" |}.

(** The body of the loop over the rows of the file. As in the builder, the
    list [adj_factors] is the object held by the entry of the current
    stream. *)
Definition read_row (headings : list string) (st : ReadState) (r : list string)
  : Result ReadState :=
  row ← Row headings r;
  new_llid ← read_llid row;
  st ← (if decide (new_llid ≠ r_prev_llid st) then
          (* New stream *)
          d ← (if decide (r_prev_llid st ≠ "") then
                 add_adj_factors_to_sdi (r_dict st) (r_prev_llid st) (r_adj_factors st)
               else Ok (r_dict st));
          let adj_factors := [] in
          streamname ← getattr row STREAMNAME;
          trib_to ← getattr row TRIB_TO_;
          Ok {| r_dict := <[new_llid := new_sdi_object new_llid streamname trib_to adj_factors]> d;
                r_adj_factors := adj_factors;
                r_prev_llid := new_llid |}
        else Ok st);
  factor ← read_adj_factor row;
  let adj_factors := r_adj_factors st ++ [factor] in
  Ok {| r_dict := alter (set_adj_factors adj_factors) (r_prev_llid st) (r_dict st);
        r_adj_factors := adj_factors;
        r_prev_llid := r_prev_llid st |}.

Fixpoint read_rows (headings : list string) (rows : list (list string))
    (st : ReadState) : Result ReadState :=
  match rows with
  | [] => Ok st
  | r :: rows =>
      st ← read_row headings st r;
      read_rows headings rows st
  end.

(** [sdi_file] is the content of the file at [sdi_filepath]. *)
Definition read_sdi_from_csvfile (sdi_file : list (list string))
  : Result (gmap string (StreamDistanceInfo F)) :=
  match sdi_file with
  | [] => Raise StopIteration                     (* sdi_file_reader.next() *)
  | headings :: rows =>
      st ← read_rows headings rows read_init;
      add_adj_factors_to_sdi (r_dict st) (r_prev_llid st) (r_adj_factors st)
  end.

(** What a table becomes when it is written and read back: the open end
    [None] of a stream is read as a sync point at [DEFAULT_END_DIST]. *)
Definition default_end_sync_pt : SyncPoint F :=
  create_syncpoint None None "" DEFAULT_END_DIST (float_of_int DEFAULT_END_DIST) "".

Definition reload_adj_factor (factor : AdjFactor F) : AdjFactor F :=
  (af_begin factor, Some (default default_end_sync_pt (af_end factor)), af_factor factor).

Definition reload_sdi (sdi_obj : StreamDistanceInfo F) : StreamDistanceInfo F :=
  set_adj_factors (reload_adj_factor <$> adj_factors sdi_obj) sdi_obj.

End Codec.

(** ** The survey point: [create_point_upstream] of [georef_RBA_survey_data] *)

(** The loop [for i in range(19, 25)] over the fish counts, [columns] being
    the range: a blank cell becomes ['0']; [data_row_survey_fields[i]] raises
    [IndexError] past the end of the list. *)
Fixpoint blank_counts_to_zero (columns : list nat) (data_row_survey_fields : list string)
  : Result (list string) :=
  match columns with
  | [] => Ok data_row_survey_fields
  | i :: columns =>
      match data_row_survey_fields !! i with
      | None => Raise IndexError
      | Some cell =>
          blank_counts_to_zero columns
            (if decide (cell = "") then <[i := "0"]> data_row_survey_fields
             else data_row_survey_fields)
      end
  end.

Section CreatePoint.
Context {F G P : Type}.

(** [line_geom.positionAlongLine(distance)] of arcpy. *)
Variable positionAlongLine : G -> F -> P.

(** The row handed to [insertCursor.insertRow]: the point geometry and the
    data fields. [data_row] is the namedtuple of the survey row, its cells by
    name; [list(data_row)[:-5]] keeps all the cells but the last five. *)
Definition create_point_upstream (line_geom : G) (distance : F)
    (data_row : list (string * string)) : Result (P * list string) :=
  let pt_geom := positionAlongLine line_geom distance in
  let data_row_survey_fields := take (length data_row - 5) data_row.*2 in
  comment ← getattr data_row "COMMENT";
  let data_row_survey_fields := data_row_survey_fields ++ [comment] in
  data_row_survey_fields ← blank_counts_to_zero (seq 19 6) data_row_survey_fields;
  comment ← match last data_row_survey_fields with
            | Some comment => Ok comment
            | None => Raise IndexError
            end;
  let data_row_survey_fields :=
    if decide (254 < String.length comment)%nat
    then <[pred (length data_row_survey_fields) := substring 0 252 comment +:+ ".."]>
           data_row_survey_fields
    else data_row_survey_fields in
  Ok (pt_geom, data_row_survey_fields).

End CreatePoint.

(** ** Instances used to run the scripts on concrete data *)

(** The text of an int, as Python prints it and reads it back. *)
Definition decimal_of_int (n : Z) : string := NilZero.string_of_int (Z.to_int n).

Definition int_of_decimal (s : string) : option Z :=
  Z.of_int <$> NilZero.int_of_string s.

(** A text for exact rationals: numerator, slash, denominator; an int alone
    is read as that int. *)
Fixpoint split_slash (s : string) : string * option string :=
  match s with
  | EmptyString => (EmptyString, None)
  | String c s =>
      if Ascii.eqb c "/" then (EmptyString, Some s)
      else let '(num, den) := split_slash s in (String c num, den)
  end.

Definition fraction_of_Qc (x : Qc) : string :=
  decimal_of_int (Qnum x) +:+ String "/" (decimal_of_int (Z.pos (Qden x))).

Definition Qc_of_fraction (s : string) : option Qc :=
  match split_slash s with
  | (num, None) => n ← int_of_decimal num; Some (Q2Qc (inject_Z n))
  | (num, Some den) =>
      n ← int_of_decimal num;
      d ← int_of_decimal den;
      match d with
      | Z.pos d => Some (Q2Qc (n # d))
      | _ => None
      end
  end.

#[export] Instance Qc_PyText : PyText Qc := {
  str_int := decimal_of_int;
  repr_float := fraction_of_Qc;
  int_of_str := int_of_decimal;
  float_of_str := Qc_of_fraction
}.

(** A feature class with the one stream ["100"], on which the point
    [(10, 10)] lies at distance 0 and the point [(20, 20)] at distance 1100
    (any other point is taken to lie at distance 0). *)
Definition stream_100 {F : Type} {PF : PyFloat F} (eqb : F -> F -> bool)
  : GeometryProvider F :=
  {| Geom := unit;
     SearchCursor := fun llid => if decide (llid = "100") then [()] else [];
     queryPointAndDistance := fun _ _ x y =>
       if eqb x (float_of_int 20) && eqb y (float_of_int 20)
       then float_of_int 1100 else float_of_int 0 |}.

(** A feature class in which every location ID selects one stream, which
    runs north from the origin: the point [(0, y)] lies at distance [y]. *)
Definition streams_north {F : Type} : GeometryProvider F :=
  {| Geom := unit;
     SearchCursor := fun _ => [()];
     queryPointAndDistance := fun _ _ x y => y |}.

Definition survey_row {F : Type} (llid : string) (cum_dist : Z) (xy : option (F * F))
  : SurveyRow F :=
  {| LLID_num := llid; STREAM := "Elk Creek"; TRIB_TO := "Nestucca River";
     CUM_DIST := cum_dist; X := fst <$> xy; Y := snd <$> xy;
     XY_Note := ""; COMMENT := "" |}.

(** The three rows of the scenario. *)
Definition scenario_rows {F : Type} {PF : PyFloat F} : list (SurveyRow F) :=
  [survey_row "100" 0 (Some (float_of_int 10, float_of_int 10));
   survey_row "100" 500 None;
   survey_row "100" 1000 (Some (float_of_int 20, float_of_int 20))].

Definition Qc_eqb (x y : Qc) : bool := bool_decide (x = y).

(** The sync point of a row with coordinates and no notes. *)
Definition xy_point {F : Type} {PF : PyFloat F} (survey_dist : Z) (x y streamline_dist : Z)
  : SyncPoint F :=
  create_syncpoint (Some (float_of_int x)) (Some (float_of_int y)) ""
    survey_dist (float_of_int streamline_dist) "".

Definition elk_creek {F : Type} (factors : list (AdjFactor F))
  : gmap string (StreamDistanceInfo F) :=
  {[ "100" := new_sdi_object "100" "Elk Creek" "Nestucca River" factors ]}.

(** The table of the scenario: one segment. *)
Definition scenario_factors {F : Type} {PF : PyFloat F} : list (AdjFactor F) :=
  [(xy_point 0 10 10 0, Some (xy_point 1000 20 20 1100),
    float_div (float_of_int 1100) (float_of_int 1000))].


Definition late_start_factors {F : Type} {PF : PyFloat F} : list (AdjFactor F) :=
  [(xy_point 50 0 50 50, Some (xy_point 100 0 150 150), float_of_int 2);
   (xy_point 100 0 150 150, Some (xy_point 200 0 250 250), float_of_int 1)].

(** A stream whose last row has no coordinates. *)
Definition open_end_rows {F : Type} {PF : PyFloat F} : list (SurveyRow F) :=
  [survey_row "100" 0 (Some (float_of_int 0, float_of_int 0));
   survey_row "100" 1000 (Some (float_of_int 0, float_of_int 1100));
   survey_row "100" 1500 None].

Definition open_end_factors {F : Type} {PF : PyFloat F} : list (AdjFactor F) :=
  [(xy_point 0 0 0 0, Some (xy_point 1000 0 1100 1100),
    float_div (float_of_int 1100) (float_of_int 1000));
   (xy_point 1000 0 1100 1100, None, DEFAULT_ADJ_FACTOR)].



(** A stream whose location ID has single quotes. *)
Definition quoted_rows : list (SurveyRow Qc) :=
  [survey_row "1''2" 0 None].

(** The columns of the survey file, in the order [create_point_upstream]
    documents, and the row of a pool without fish counts. *)
Definition survey_headings : list string :=
  ["ENTRY"; "YEAR"; "DATE"; "BASIN"; "TRIB_TO"; "STREAM"; "LLID_num"; "s_GUID";
   "Channel_Type"; "Pool_num"; "s_Lineage"; "RAND"; "TYPE"; "LENGTH"; "WIDTH";
   "VIS"; "COMP"; "DIST"; "CUM_DIST"; "COHO"; "Zero_plus"; "STHD"; "CUT"; "CHIN";
   "RES_RB"; "CUL"; "KNOT"; "LONG"; "BEAVER_DAMS"; "Num_BEAVER_DAMS";
   "GRAVEL_COUNT"; "COMMENT"; "XY_Text"; "X"; "Y"; "XY_Note"].

Definition pool_cells : list string :=
  ["1"; "2016"; "7/1/2016"; "Nestucca"; "Nestucca River"; "Elk Creek"; "100"; "g1";
   "C"; "1"; "l1"; "0"; "P"; "12"; "4"; "1"; "1"; "750"; "750"; "3"; ""; "1"; "";
   ""; ""; ""; ""; ""; ""; ""; ""; "deep pool"; ""; ""; ""; ""].

Definition pool_row : list (string * string) := zip survey_headings pool_cells.

Definition pool_fields : list string :=
  ["1"; "2016"; "7/1/2016"; "Nestucca"; "Nestucca River"; "Elk Creek"; "100"; "g1";
   "C"; "1"; "l1"; "0"; "P"; "12"; "4"; "1"; "1"; "750"; "750"; "3"; "0"; "1"; "0";
   "0"; "0"; ""; ""; ""; ""; ""; ""; "deep pool"].



(** ** Vocabulary of the statements *)

Section Vocabulary.
Context {F : Type} {PF : PyFloat F}.

(** The location ID of the stream the loops are on after [rows]: that of the
    last row that has one. *)
Definition last_llid (rows : list (SurveyRow F)) : string :=
  foldl (fun prev row => if decide (LLID_num row = "") then prev else LLID_num row)
    "" rows.

(** [first :: block] is the last run of rows of the stream [stream_id] in
    [rows]: the rows of [block] are on that stream (or have no location ID),
    and no later row is. *)
Definition last_block (rows : list (SurveyRow F)) (stream_id : string)
    (first : SurveyRow F) (block : list (SurveyRow F)) : Prop :=
  exists before after,
    rows = before ++ first :: block ++ after /\
    LLID_num first = stream_id /\
    last_llid before ≠ stream_id /\
    Forall (fun row => LLID_num row = stream_id \/ LLID_num row = "") block /\
    Forall (fun row => LLID_num row ≠ stream_id) after.


Definition sorted_in_streams (rows : list (SurveyRow F)) : Prop :=
  forall before r1 mid r2 after,
    rows = before ++ r1 :: mid ++ r2 :: after ->
    LLID_num r1 ≠ "" -> LLID_num r2 = LLID_num r1 ->
    CUM_DIST r1 <= CUM_DIST r2.

(** [factors] is a run of closed segments from the sync point [p] to the sync
    point [q], each beginning where the one before ends, with the factor
    [compute_adj_factor] gives it. *)
Fixpoint closed_chain (p : SyncPoint F) (factors : list (AdjFactor F))
    (q : SyncPoint F) : Prop :=
  match factors with
  | [] => p = q
  | factor :: factors =>
      af_begin factor = p /\
      exists e, af_end factor = Some e /\
        compute_adj_factor p (Some e) = Ok (af_factor factor) /\
        closed_chain e factors q
  end.

(** The list of a stream in a built table: a run of closed segments from
    [p], not empty unless the open-ended segment follows it. *)
Definition built_factors (p : SyncPoint F) (factors : list (AdjFactor F)) : Prop :=
  exists closed q,
    closed_chain p closed q /\
    (factors = closed /\ closed ≠ [] \/
     factors = closed ++ [(q, None, DEFAULT_ADJ_FACTOR)]).

(** The row gives no coordinates. *)
Definition no_xy (row : SurveyRow F) : Prop := X row = None \/ Y row = None.



(** A segment has a positive width. *)
Definition widens (factor : AdjFactor F) : Prop :=
  forall e, af_end factor = Some e ->
    survey_cum_dist (af_begin factor) < survey_cum_dist e.



(** The segment has an end and [survey_dist] is not in its range. *)
Definition misses (survey_dist : Z) (factor : AdjFactor F) : Prop :=
  exists e, af_end factor = Some e /\
    ~ (survey_cum_dist (af_begin factor) <= survey_dist <= survey_cum_dist e).

(** The value the referencer computes from the start [b] of a segment. *)
Definition from_begin (b : SyncPoint F) (survey_dist : Z) (adj_factor : F) : F :=
  float_add (streamline_cum_dist b)
    (float_mul (float_of_int (survey_dist - survey_cum_dist b)) adj_factor).


Fixpoint has_quote (s : string) : bool :=
  match s with
  | EmptyString => false
  | String c s => Ascii.eqb c "'" || has_quote s
  end.

End Vocabulary.

(** ** Vocabulary of the loops *)

Section LoopVocabulary.
Context {F : Type} {PF : PyFloat F} {GP : GeometryProvider F} {PT : PyText F}.

(** The cell of a fish count as it is stored. *)
Definition count_cell (cell : string) : string :=
  if decide (cell = "") then "0" else cell.

(** The comment as it is stored. *)
Definition stored_comment (comment : string) : string :=
  if decide (254 < String.length comment)%nat then substring 0 252 comment +:+ ".."
  else comment.

(** The row has a location ID: it is not skipped. *)
Definition located (row : SurveyRow F) : Prop := LLID_num row ≠ "".

#[export] Instance located_dec (row : SurveyRow F) : Decision (located row).
Proof. unfold located. apply _. Defined.



(** The entry of a stream is named after a row of the stream. *)
Definition named_after (done : list (SurveyRow F)) (k : string)
    (sdi : StreamDistanceInfo F) : Prop :=
  k ≠ "" /\
  exists row, row ∈ done /\ LLID_num row = k /\
    name sdi = STREAM row /\ trib_to sdi = TRIB_TO row.

(** The streams of the dictionary of the builder are those of the rows
    read. *)
Definition build_streams (done : list (SurveyRow F)) (st : @BuildState F GP) : Prop :=
  (forall k sdi, b_dict st !! k = Some sdi -> named_after done k sdi) /\
  (forall row, row ∈ done -> LLID_num row ≠ "" -> is_Some (b_dict st !! LLID_num row)) /\
  (b_prev_llid st ≠ "" -> is_Some (b_dict st !! b_prev_llid st)).

(** Every stream of the dictionary of the reader has a segment, and the list
    of the current stream is the one its entry holds. *)
Definition read_filled (st : @ReadState F) : Prop :=
  (forall k (sdi : StreamDistanceInfo F), r_dict st !! k = Some sdi -> adj_factors sdi ≠ []) /\
  (forall sdi, r_dict st !! r_prev_llid st = Some sdi ->
     adj_factors sdi = r_adj_factors st).

(** The entry of a stream read from a file: under the location ID of a row,
    its quotes removed, with the names of that row. *)
Definition read_from (headings : list string) (rows : list (list string))
    (k : string) (sdi : StreamDistanceInfo F) : Prop :=
  has_quote k = false /\ llid sdi = k /\
  exists r row, r ∈ rows /\ Row headings r = Ok row /\
    read_llid row = Ok k /\
    getattr row STREAMNAME = Ok (name sdi) /\ getattr row TRIB_TO_ = Ok (trib_to sdi).

End LoopVocabulary.

(** * Properties *)

(** ** The referencer *)

Section ReferencerFacts.
Context {F : Type} {PF : PyFloat F}.
Implicit Types (factors : list (AdjFactor F)) (factor : AdjFactor F).

Lemma in_segment_true (b sd e : Z) : in_segment b sd e = true <-> b <= sd <= e.
Proof. unfold in_segment. rewrite andb_true_iff, !Z.leb_le. tauto. Qed.

Lemma in_segment_false (b sd e : Z) : in_segment b sd e = false <-> ~ (b <= sd <= e).
Proof. rewrite <- in_segment_true. destruct (in_segment b sd e); split; congruence. Qed.


(** A scan goes past the segments that miss the distance. *)
Lemma adjust_loop_skip (sd : Z) factors factors' (begins : option (Z * F)) (adj_factor : F) :
  Forall (misses sd) factors -> factors' ≠ [] ->
  exists begins',
    adjust_loop sd (factors ++ factors') begins adj_factor =
    adjust_loop sd factors' begins' adj_factor.
Proof.
  intros Hmiss Hne. revert begins.
  induction Hmiss as [|factor factors (e & He & Hout) _ IH]; intros begins.
  - by exists begins.
  - cbn [app adjust_loop]. rewrite He.
    apply in_segment_false in Hout. rewrite Hout. apply IH.
Qed.

Lemma adjust_loop_hit (sd : Z) factor factors (e : SyncPoint F)
    (begins : option (Z * F)) (adj_factor : F) :
  af_end factor = Some e ->
  survey_cum_dist (af_begin factor) <= sd <= survey_cum_dist e ->
  adjust_loop sd (factor :: factors) begins adj_factor =
    Ok (Some (survey_cum_dist (af_begin factor), streamline_cum_dist (af_begin factor)),
        af_factor factor).
Proof.
  intros He Hin. cbn [adjust_loop]. rewrite He.
  apply in_segment_true in Hin. by rewrite Hin.
Qed.


(** The distance computed when the scan stops at [factor]. *)
Lemma adjust_stream_distance_hit (sd : Z) factors factor factors' (e : SyncPoint F) :
  Forall (misses sd) factors ->
  af_end factor = Some e ->
  survey_cum_dist (af_begin factor) <= sd <= survey_cum_dist e ->
  adjust_stream_distance sd (factors ++ factor :: factors') =
    Ok (from_begin (af_begin factor) sd (af_factor factor)).
Proof.
  intros Hmiss He Hin. unfold adjust_stream_distance.
  destruct (adjust_loop_skip sd factors (factor :: factors') None DEFAULT_ADJ_FACTOR)
    as [begins' ->]; [done..|].
  by rewrite (adjust_loop_hit _ _ _ e).
Qed.


End ReferencerFacts.

Section ReloadFacts.
Context {F : Type} {PF : PyFloat F}.
Implicit Types (factors : list (AdjFactor F)) (factor : AdjFactor F).



Lemma resolve_lookup (d : gmap string (StreamDistanceInfo F)) (id : string)
    (sdi : StreamDistanceInfo F) (sd : Z) :
  d !! id = Some sdi ->
  resolve d id sd = adjust_stream_distance sd (adj_factors sdi).
Proof. intros Hid. unfold resolve, dict_getitem. by rewrite Hid. Qed.



End ReloadFacts.

(** C8. For a location ID that is not a key of the table, the referencer
    raises [KeyError], one of Python's [LookupError]s: no value is returned
    and no default is applied. *)
Theorem resolve_unknown_llid {F : Type} {PF : PyFloat F}
    (d : gmap string (StreamDistanceInfo F)) (id : string) (sd : Z) :
  d !! id = None ->
  resolve d id sd = Raise KeyError /\ is_LookupError KeyError = true.
Proof. intros Hid. unfold resolve, dict_getitem. by rewrite Hid. Qed.

Lemma resolve_unknown_llid_witness :
  (∅ : gmap string (StreamDistanceInfo Qc)) !! "100" = None /\
  resolve (∅ : gmap string (StreamDistanceInfo Qc)) "100" 750 = Raise KeyError.
Proof.
  split; [reflexivity|].
  apply (resolve_unknown_llid (∅ : gmap string (StreamDistanceInfo Qc)) "100" 750).
  reflexivity.
Defined.

(** The loop of [georeference_survey_data] stops with the same error at the
    first row of a stream that the table does not have. *)
Lemma georeference_unknown_llid {F : Type} {PF : PyFloat F} {GP : GeometryProvider F}
    (d : gmap string (StreamDistanceInfo F)) (row : SurveyRow F)
    (rows : list (SurveyRow F)) :
  LLID_num row ≠ "" -> d !! LLID_num row = None ->
  georeference_survey_data (row :: rows) d = Raise KeyError.
Proof.
  intros Hne Hid. unfold georeference_survey_data. cbn [georef_rows].
  unfold georef_row. rewrite decide_False by done.
  cbn [georef_init g_prev_llid]. rewrite decide_True by done.
  unfold dict_getitem. by rewrite Hid.
Qed.



(** ** The scripts on concrete data *)

(** Two doubles are different when [==] tells them apart. *)
Ltac float_neq y :=
  let Heq := fresh "Heq" in
  intros Heq;
  apply (f_equal (fun r => match r with
                           | Ok x => PrimFloat.eqb x y
                           | Raise _ => false
                           end)) in Heq;
  vm_compute in Heq; discriminate Heq.

Lemma scenario_built_ieee :
  build_streamlength_adjustment_factor_dictionary (GP := stream_100 PrimFloat.eqb)
    scenario_rows false = Ok (elk_creek scenario_factors).
Proof. vm_compute. reflexivity. Qed.

Lemma scenario_built_exact :
  build_streamlength_adjustment_factor_dictionary (GP := stream_100 Qc_eqb)
    scenario_rows false = Ok (elk_creek scenario_factors).
Proof. vm_compute. reflexivity. Qed.

(** C1 (as the code has it). The three rows of the scenario give the stream
    ["100"] one segment, from (0, 0) to (1000, 1100) with the factor
    1100/1000, and no open-ended segment after it, the last row having
    coordinates. On that table the survey distance 750 is referenced at 825
    (in doubles at the next double above 825, the factor not being 1.1
    exactly) and the survey distance 1200, which is in no segment, at 1200:
    the default factor from the start of the segment. *)
Theorem scenario_one_segment :
  (build_streamlength_adjustment_factor_dictionary (GP := stream_100 PrimFloat.eqb)
     scenario_rows false = Ok (elk_creek scenario_factors) /\
   resolve (elk_creek scenario_factors) "100" 750 = Ok (PrimFloat.next_up 825) /\
   resolve (elk_creek scenario_factors) "100" 1200 = Ok 1200%float) /\
  (build_streamlength_adjustment_factor_dictionary (GP := stream_100 Qc_eqb)
     scenario_rows false = Ok (elk_creek scenario_factors) /\
   resolve (elk_creek scenario_factors) "100" 750 = Ok (Q2Qc 825) /\
   resolve (elk_creek scenario_factors) "100" 1200 = Ok (Q2Qc 1200)).
Proof.
  split; (split; [|split]).
  - exact scenario_built_ieee.
  - vm_compute. reflexivity.
  - vm_compute. reflexivity.
  - exact scenario_built_exact.
  - vm_compute. reflexivity.
  - vm_compute. reflexivity.
Qed.

(** The table built from the scenario has one segment, not two, and the
    survey distance 1200 is not referenced at 1300. *)
Lemma scenario_not_two_segments :
  exists t sdi,
    build_streamlength_adjustment_factor_dictionary (GP := stream_100 PrimFloat.eqb)
      scenario_rows false = Ok t /\
    t !! "100" = Some sdi /\
    length (adj_factors sdi) ≠ 2%nat /\
    resolve t "100" 1200 ≠ Ok 1300%float.
Proof.
  exists (elk_creek scenario_factors), (new_sdi_object "100" "Elk Creek" "Nestucca River" scenario_factors).
  split; [exact scenario_built_ieee|].
  split; [reflexivity|].
  split; [cbn; lia|].
  float_neq 1300%float.
Qed.







(** ** The builder *)

Lemma bind_Ok {A B : Type} (r : Result A) (k : A -> Result B) (y : B) :
  r ≫= k = Ok y -> exists x, r = Ok x /\ k x = Ok y.
Proof. destruct r as [x|e]; [|done]. intros Hk. by exists x. Qed.

Section ChainFacts.
Context {F : Type} {PF : PyFloat F}.
Implicit Types (factors closed : list (AdjFactor F)) (factor : AdjFactor F)
  (p q b e : SyncPoint F).

Lemma compute_adj_factor_Ok b e (f : F) :
  compute_adj_factor b (Some e) = Ok f ->
  survey_cum_dist b ≠ survey_cum_dist e /\
  f = float_div (float_sub (streamline_cum_dist e) (streamline_cum_dist b))
        (float_of_int (survey_cum_dist e - survey_cum_dist b)).
Proof.
  unfold compute_adj_factor.
  destruct (Z.eqb_spec (survey_cum_dist e - survey_cum_dist b) 0) as [Hz|Hnz]; [done|].
  intros [= <-]. split; [lia|done].
Qed.

Lemma compute_adj_factor_zero b e :
  survey_cum_dist b = survey_cum_dist e ->
  compute_adj_factor b (Some e) = Raise ZeroDivisionError.
Proof.
  intros Heq. unfold compute_adj_factor.
  by replace (survey_cum_dist e - survey_cum_dist b) with 0 by lia.
Qed.

Lemma closed_chain_snoc p factors q e (f : F) :
  closed_chain p factors q ->
  compute_adj_factor q (Some e) = Ok f ->
  closed_chain p (factors ++ [(q, Some e, f)]) e.
Proof.
  revert p. induction factors as [|factor factors IH]; intros p Hchain Hf; cbn in *.
  - subst q. split; [done|]. by exists e.
  - destruct Hchain as (Hb & e' & He' & Hf' & Hchain).
    split; [done|]. exists e'. do 2 (split; [done|]). by apply IH.
Qed.


Lemma closed_chain_ends p closed q factor :
  closed_chain p closed q -> factor ∈ closed ->
  exists e, af_end factor = Some e /\
    compute_adj_factor (af_begin factor) (Some e) = Ok (af_factor factor).
Proof.
  revert p. induction closed as [|factor' closed IH]; intros p Hchain Hin.
  - by apply elem_of_nil in Hin.
  - destruct Hchain as (Hb & e' & He' & Hf' & Hchain).
    apply elem_of_cons in Hin as [->|Hin].
    + exists e'. by rewrite Hb.
    + by apply (IH e').
Qed.


Lemma built_factors_nonempty p factors : built_factors p factors -> factors ≠ [].
Proof.
  intros (closed & q & _ & [[-> Hne]| ->]); [done|].
  by destruct closed.
Qed.



Lemma built_factors_closed p factors b e (f : F) :
  built_factors p factors -> (b, Some e, f) ∈ factors ->
  compute_adj_factor b (Some e) = Ok f.
Proof.
  intros (closed & q & Hchain & [[-> Hne]| ->]) Hin.
  - destruct (closed_chain_ends _ _ _ _ Hchain Hin) as (e' & [= <-] & Hf). done.
  - apply elem_of_app in Hin as [Hin|Hin].
    + destruct (closed_chain_ends _ _ _ _ Hchain Hin) as (e' & [= <-] & Hf). done.
    + by apply list_elem_of_singleton in Hin.
Qed.

Lemma built_factors_open p factors b (f : F) :
  built_factors p factors -> (b, None, f) ∈ factors ->
  f = DEFAULT_ADJ_FACTOR /\ last factors = Some (b, None, f).
Proof.
  intros (closed & q & Hchain & [[-> Hne]| ->]) Hin.
  - by destruct (closed_chain_ends _ _ _ _ Hchain Hin) as (e' & [=] & _).
  - apply elem_of_app in Hin as [Hin|Hin].
    + by destruct (closed_chain_ends _ _ _ _ Hchain Hin) as (e' & [=] & _).
    + apply list_elem_of_singleton in Hin as [= -> ->]. by rewrite last_snoc.
Qed.

End ChainFacts.

Section OrderFacts.
Context {F : Type} {PF : PyFloat F}.
Implicit Types (factors closed : list (AdjFactor F)) (factor : AdjFactor F)
  (p q b e : SyncPoint F) (rows : list (SurveyRow F)).







Lemma sorted_in_streams_prefix rows rows' :
  sorted_in_streams (rows ++ rows') -> sorted_in_streams rows.
Proof.
  intros Hsorted before r1 mid r2 after -> Hne Hid.
  apply (Hsorted before r1 mid r2 (after ++ rows')); [|done..].
  by rewrite <- !app_assoc, <- !app_comm_cons, <- !app_assoc.
Qed.

Lemma last_llid_snoc rows (row : SurveyRow F) :
  last_llid (rows ++ [row]) =
  if decide (LLID_num row = "") then last_llid rows else LLID_num row.
Proof. unfold last_llid. by rewrite foldl_app. Qed.

End OrderFacts.

Section BuilderInvariant.
Context {F : Type} {PF : PyFloat F} {GP : GeometryProvider F}.
Variable sync_coords_in_lat_long : bool.
Variable srt : bool.     (* the rows are sorted in each stream *)
Implicit Types (rows done : list (SurveyRow F)) (row : SurveyRow F)
  (st : BuildState) (sdi : StreamDistanceInfo F).

(** The entry of a stream the loop has left. *)
Definition finished done (stream_id : string) sdi : Prop :=
  stream_id ≠ "" /\ llid sdi = stream_id /\
  exists first block p,
    last_block done stream_id first block /\
    built_factors p (adj_factors sdi) /\
    survey_cum_dist p = CUM_DIST first /\
    (srt = true -> Forall widens (adj_factors sdi)).

(** The locals while the loop is on a stream. *)
Definition current done st : Prop :=
  exists before first block p b sdi geom,
    done = before ++ first :: block /\
    LLID_num first = b_prev_llid st /\
    last_llid before ≠ b_prev_llid st /\
    Forall (fun row => LLID_num row = b_prev_llid st \/ LLID_num row = "") block /\
    b_begin_sync_point st = Some b /\
    b_stream_geom st = Some geom /\
    b_dict st !! b_prev_llid st = Some sdi /\
    llid sdi = b_prev_llid st /\
    adj_factors sdi = b_adj_factors st /\
    closed_chain p (b_adj_factors st) b /\
    survey_cum_dist p = CUM_DIST first /\
    (exists rb, rb ∈ first :: block /\ LLID_num rb = b_prev_llid st /\
       CUM_DIST rb = survey_cum_dist b) /\
    (b_need_adj_factor st = false -> b_adj_factors st ≠ []) /\
    (srt = true -> Forall widens (b_adj_factors st)).

Definition build_inv done st : Prop :=
  b_prev_llid st = last_llid done /\
  b_dict st !! "" = None /\
  (forall k sdi, k ≠ b_prev_llid st -> b_dict st !! k = Some sdi -> finished done k sdi) /\
  (b_prev_llid st ≠ "" -> current done st).

Lemma build_inv_init : build_inv [] build_init.
Proof. repeat split; try done. Qed.

Lemma last_block_snoc done (k : string) first block row :
  last_block done k first block -> LLID_num row ≠ k ->
  last_block (done ++ [row]) k first block.
Proof.
  intros (before & after & -> & Hfirst & Hbefore & Hblock & Hafter) Hrow.
  exists before, (after ++ [row]). split; [|split; [done|split; [done|split; [done|]]]].
  - by rewrite <- !app_assoc, <- !app_comm_cons, <- !app_assoc.
  - apply Forall_app. split; [done|]. by apply Forall_singleton.
Qed.

Lemma finished_snoc done (k : string) sdi row :
  finished done k sdi -> LLID_num row ≠ k -> finished (done ++ [row]) k sdi.
Proof.
  intros (Hk & Hllid & first & block & p & Hblock & Hrest) Hrow.
  split; [done|split; [done|]]. exists first, block, p.
  split; [by apply last_block_snoc|done].
Qed.

(** The list of the stream that ends, and its entry. *)
Lemma current_finished done st (factors : list (AdjFactor F)) row :
  current done st -> b_prev_llid st ≠ "" ->
  final_adj_factors st = Ok factors ->
  LLID_num row ≠ b_prev_llid st ->
  exists sdi, b_dict st !! b_prev_llid st = Some sdi /\
    finished (done ++ [row]) (b_prev_llid st) (set_adj_factors factors sdi).
Proof.
  intros (before & first & block & p & b & sdi & geom & -> & Hfirst & Hbefore &
          Hblock & Hb & Hgeom & Hsdi & Hllid & Hadj & Hchain & Hp & Hrb & Hneed & Hwide)
         Hprev Hfinal Hrow.
  exists sdi. split; [done|].
  split; [done|split; [done|]]. exists first, block, p.
  split; [|split; [|split; [done|]]].
  - exists before, [row]. split; [by rewrite <- app_assoc|].
    split; [done|split; [done|split; [done|]]]. by apply Forall_singleton.
  - unfold final_adj_factors in Hfinal. rewrite Hb in Hfinal. cbn in Hfinal.
    exists (b_adj_factors st), b. split; [done|].
    destruct (b_need_adj_factor st); injection Hfinal as <-.
    + by right.
    + left. split; [done|]. by apply Hneed.
  - intros Hsrt. specialize (Hwide Hsrt).
    unfold final_adj_factors in Hfinal. rewrite Hb in Hfinal. cbn in Hfinal.
    destruct (b_need_adj_factor st); injection Hfinal as <-; cbn; [|done].
    apply Forall_app. split; [done|]. apply Forall_singleton. by intros e [=].
Qed.

Lemma current_snoc_skip done st row :
  current done st -> LLID_num row = "" -> current (done ++ [row]) st.
Proof.
  intros (before & first & block & p & b & sdi & geom & -> & Hfirst & Hbefore &
          Hblock & Hb & Hgeom & Hsdi & Hllid & Hadj & Hchain & Hp & Hrb & Hneed & Hwide) Hrow.
  exists before, first, (block ++ [row]), p, b, sdi, geom.
  split; [by rewrite <- app_assoc|].
  do 2 (split; [done|]).
  split; [apply Forall_app; split; [done|]; apply Forall_singleton; by right|].
  do 7 (split; [done|]).
  split; [|done].
  destruct Hrb as (rb & Hin & Hrest). exists rb. split; [|done].
  rewrite app_comm_cons. apply elem_of_app. by left.
Qed.

Lemma build_row_inv done st row st' :
  build_inv done st ->
  (srt = true -> sorted_in_streams (done ++ [row])) ->
  build_row sync_coords_in_lat_long st row = Ok st' ->
  build_inv (done ++ [row]) st'.
Proof.
  intros (Hprev & Hempty & Hfin & Hcur) Hsorted Hrow.
  unfold build_row in Hrow.
  destruct (decide (LLID_num row = "")) as [Hskip|Hid].
  - injection Hrow as <-.
    split; [by rewrite last_llid_snoc, decide_True|].
    split; [done|]. split.
    + intros k sdi Hk Hsdi. apply finished_snoc; [by apply Hfin|].
      destruct (Hfin k sdi Hk Hsdi) as (Hne & _). congruence.
    + intros Hne. by apply current_snoc_skip; [apply Hcur|].
  - cbn -[compute_adj_factor compute_xy_sync_point new_syncpt_using_survey_dist] in Hrow.
    destruct (decide (LLID_num row ≠ b_prev_llid st)) as [Hnew|Hsame].
    + apply bind_Ok in Hrow as (d & Hd & Hrow).
      apply bind_Ok in Hrow as (geom & Hgeom & Hrow).
      set (b := match X row with Some x => _ | None => _ end) in Hrow.
      assert (Hb : survey_cum_dist b = CUM_DIST row)
        by (subst b; destruct (X row), (Y row); done).
      clearbody b. injection Hrow as <-.
      assert (Hd' : d !! "" = None /\
                forall k sdi, k ≠ LLID_num row -> d !! k = Some sdi ->
                              finished (done ++ [row]) k sdi).
      { destruct (decide (b_prev_llid st ≠ "")) as [Hne|He].
        - apply bind_Ok in Hd as (factors & Hfinal & Hadd).
          destruct (current_finished done st factors row (Hcur Hne) Hne Hfinal Hnew)
            as (sdi0 & Hsdi0 & Hfin0).
          unfold add_adj_factors_to_sdi, dict_getitem in Hadd.
          rewrite Hsdi0 in Hadd. injection Hadd as <-.
          split; [by rewrite lookup_insert_ne|].
          intros k sdi Hk Hsdi.
          destruct (decide (k = b_prev_llid st)) as [->|Hkp].
          + rewrite lookup_insert_eq in Hsdi. by injection Hsdi as <-.
          + rewrite lookup_insert_ne in Hsdi by done.
            apply finished_snoc; [by apply Hfin|done].
        - injection Hd as <-. split; [done|].
          intros k sdi Hk Hsdi. apply finished_snoc; [|done].
          apply Hfin; [|done]. intros Hkp. apply He. intros Hp.
          rewrite Hkp, Hp in Hsdi. congruence. }
      destruct Hd' as [Hd1 Hd2].
      split; [by rewrite last_llid_snoc, decide_False|].
      split; [by cbn; rewrite lookup_insert_ne|].
      split.
      * intros k sdi Hk Hsdi. cbn in Hk, Hsdi.
        rewrite lookup_insert_ne in Hsdi by done. by apply Hd2.
      * intros _. exists done, row, [], b, b,
          (new_sdi_object (LLID_num row) (STREAM row) (TRIB_TO row) []), geom. cbn.
        split; [done|]. split; [done|]. split; [congruence|].
        split; [done|]. do 2 (split; [done|]).
        split; [by rewrite lookup_insert_eq|].
        do 4 (split; [done|]).
        split; [exists row; split; [by left|done]|].
        split; [done|]. intros _. constructor.
    + assert (Heq : LLID_num row = b_prev_llid st)
        by (destruct (decide (LLID_num row = b_prev_llid st)); [done|contradiction]).
      assert (Hp : b_prev_llid st ≠ "") by congruence.
      destruct (Hcur Hp) as
        (before & first & block & p & b & sdi & geom & -> & Hfirst & Hbefore &
         Hblock & Hb & Hgeom & Hsdi & Hllid & Hadj & Hchain & Hp0 & Hrb & Hneed & Hwide).
      assert (Hopen : build_inv ((before ++ first :: block) ++ [row])
                {| b_dict := b_dict st; b_adj_factors := b_adj_factors st;
                   b_prev_llid := b_prev_llid st; b_need_adj_factor := true;
                   b_stream_geom := b_stream_geom st;
                   b_begin_sync_point := b_begin_sync_point st;
                   b_end_sync_point := None |}).
      { split; [by cbn; rewrite last_llid_snoc, decide_False, Heq|].
        split; [done|]. split.
        - intros k sdi' Hk Hsdi'. cbn in Hk, Hsdi'.
          apply finished_snoc; [by apply Hfin|congruence].
        - intros _. exists before, first, (block ++ [row]), p, b, sdi, geom. cbn.
          split; [by rewrite <- app_assoc|].
          do 2 (split; [done|]).
          split; [apply Forall_app; split; [done|]; apply Forall_singleton; by left|].
          do 7 (split; [done|]).
          split; [|done].
          destruct Hrb as (rb & Hin & Hrest). exists rb. split; [|done].
          rewrite app_comm_cons. apply elem_of_app. by left. }
      destruct (X row) as [x|]; [destruct (Y row) as [y|]|];
        [|by injection Hrow as <-..].
      clear Hopen. rewrite Hgeom, Hb in Hrow. cbn [local mbind Result_bind] in Hrow.
      set (e := compute_xy_sync_point geom x y _ _ _ _) in Hrow.
      assert (He : survey_cum_dist e = CUM_DIST row) by done.
      clearbody e.
      apply bind_Ok in Hrow as (f & Hf & Hrow). injection Hrow as <-.
      split; [by cbn; rewrite last_llid_snoc, decide_False, Heq|].
      split; [by cbn; unfold append_shared; rewrite lookup_alter_ne|].
      split.
      * intros k sdi' Hk Hsdi'. cbn in Hk, Hsdi'. unfold append_shared in Hsdi'.
        rewrite lookup_alter_ne in Hsdi' by done.
        apply finished_snoc; [by apply Hfin|congruence].
      * intros _.
        exists before, first, (block ++ [row]), p, e,
          (set_adj_factors (b_adj_factors st ++ [(b, Some e, f)]) sdi), geom. cbn.
        split; [by rewrite <- app_assoc|].
        do 2 (split; [done|]).
        split; [apply Forall_app; split; [done|]; apply Forall_singleton; by left|].
        do 2 (split; [done|]).
        split; [by unfold append_shared; rewrite lookup_alter_eq, Hsdi|].
        do 2 (split; [done|]).
        split; [by apply closed_chain_snoc|].
        split; [done|].
        split; [exists row; split; [|done]; rewrite app_comm_cons;
                apply elem_of_app; right; by left|].
        split; [intros _; by destruct (b_adj_factors st)|].
        intros Hsrt. apply Forall_app. split; [by apply Hwide|].
        apply Forall_singleton. intros e' [= <-]. cbn.
        apply compute_adj_factor_Ok in Hf as [Hne _].
        destruct Hrb as (rb & Hin & Hrbid & Hrbd).
        apply list_elem_of_split in Hin as (l1 & l2 & Hsplit).
        assert (CUM_DIST rb <= CUM_DIST row); [|lia].
        apply (Hsorted Hsrt (before ++ l1) rb l2 row []); [|congruence..].
        rewrite Hsplit. by rewrite <- !app_assoc.
Qed.

Lemma build_rows_inv rows : forall done st st',
  build_inv done st ->
  (srt = true -> sorted_in_streams (done ++ rows)) ->
  build_rows sync_coords_in_lat_long rows st = Ok st' ->
  build_inv (done ++ rows) st'.
Proof.
  induction rows as [|row rows IH]; intros done st st' Hinv Hsorted Hrows.
  - injection Hrows as <-. by rewrite app_nil_r.
  - cbn in Hrows. apply bind_Ok in Hrows as (st1 & Hrow & Hrows).
    replace (done ++ row :: rows) with ((done ++ [row]) ++ rows) in *
      by by rewrite <- app_assoc.
    apply (IH _ st1); [|done..].
    apply (build_row_inv done st); [done| |done].
    intros Hsrt. by apply (sorted_in_streams_prefix _ rows), Hsorted.
Qed.

(** Every entry of a built table is the entry of a stream the loop has
    left: the list of its last run of rows. *)
Lemma build_finished rows (t : gmap string (StreamDistanceInfo F)) :
  (srt = true -> sorted_in_streams rows) ->
  build_streamlength_adjustment_factor_dictionary rows sync_coords_in_lat_long = Ok t ->
  t ≠ ∅ /\ forall k sdi, t !! k = Some sdi -> finished rows k sdi.
Proof.
  intros Hsorted Hbuild. unfold build_streamlength_adjustment_factor_dictionary in Hbuild.
  apply bind_Ok in Hbuild as (st & Hrows & Hbuild).
  apply bind_Ok in Hbuild as (factors & Hfinal & Hadd).
  pose proof (build_rows_inv rows [] build_init st build_inv_init Hsorted Hrows)
    as (Hprev & Hempty & Hfin & Hcur). cbn [app] in *.
  unfold add_adj_factors_to_sdi in Hadd.
  apply bind_Ok in Hadd as (sdi0 & Hsdi0 & Hadd). injection Hadd as <-.
  unfold dict_getitem in Hsdi0.
  destruct (b_dict st !! b_prev_llid st) as [sdi1|] eqn:Hsdi1; [|done].
  injection Hsdi0 as ->.
  assert (Hne : b_prev_llid st ≠ "") by (intros Hp; rewrite Hp in Hsdi1; congruence).
  split; [apply insert_non_empty|].
  intros k sdi Hsdi.
  destruct (decide (k = b_prev_llid st)) as [->|Hk].
  - rewrite lookup_insert_eq in Hsdi. injection Hsdi as <-.
    destruct (Hcur Hne) as
      (before & first & block & p & b & sdi & geom & -> & Hfirst & Hbefore &
       Hblock & Hb & Hgeom & Hsdi & Hllid & Hadj & Hchain & Hp0 & Hrb & Hneed & Hwide).
    rewrite Hsdi1 in Hsdi. injection Hsdi as <-.
    split; [done|split; [done|]]. exists first, block, p.
    split; [|split; [|split; [done|]]].
    + exists before, []. rewrite app_nil_r. by repeat split.
    + unfold final_adj_factors in Hfinal. rewrite Hb in Hfinal. cbn in Hfinal.
      exists (b_adj_factors st), b. split; [done|].
      destruct (b_need_adj_factor st); injection Hfinal as <-.
      * by right.
      * left. split; [done|]. by apply Hneed.
    + intros Hsrt. specialize (Hwide Hsrt).
      unfold final_adj_factors in Hfinal. rewrite Hb in Hfinal. cbn in Hfinal.
      destruct (b_need_adj_factor st); injection Hfinal as <-; cbn; [|done].
      apply Forall_app. split; [done|]. apply Forall_singleton. by intros e [=].
  - rewrite lookup_insert_ne in Hsdi by done. by apply Hfin.
Qed.

End BuilderInvariant.




Section DegenerateSegment.
Context {F : Type} {PF : PyFloat F} {GP : GeometryProvider F}.
Variable sync_coords_in_lat_long : bool.
Implicit Types (rows : list (SurveyRow F)) (row : SurveyRow F) (st : BuildState).

Lemma build_rows_app rows rows' st :
  build_rows sync_coords_in_lat_long (rows ++ rows') st =
  build_rows sync_coords_in_lat_long rows st ≫= build_rows sync_coords_in_lat_long rows'.
Proof.
  revert st. induction rows as [|row rows IH]; intros st; [done|].
  cbn. destruct (build_row sync_coords_in_lat_long st row) as [st1|e]; [|done].
  cbn. apply IH.
Qed.

(** The loop is on the stream [id], with a segment open at a sync point of
    survey distance [d]. *)
Definition open_at st (id : string) (d : Z) : Prop :=
  b_prev_llid st = id /\
  exists b geom, b_begin_sync_point st = Some b /\ b_stream_geom st = Some geom /\
    survey_cum_dist b = d.

Lemma build_row_control_point st row st' :
  build_row sync_coords_in_lat_long st row = Ok st' ->
  LLID_num row ≠ "" ->
  (is_Some (X row) /\ is_Some (Y row)) \/ b_prev_llid st ≠ LLID_num row ->
  open_at st' (LLID_num row) (CUM_DIST row).
Proof.
  intros Hrow Hid Hcontrol. unfold build_row in Hrow.
  rewrite decide_False in Hrow by done.
  cbn -[compute_adj_factor compute_xy_sync_point new_syncpt_using_survey_dist] in Hrow.
  destruct (decide (LLID_num row ≠ b_prev_llid st)) as [Hnew|Hsame].
  - apply bind_Ok in Hrow as (d & Hd & Hrow).
    apply bind_Ok in Hrow as (geom & Hgeom & Hrow).
    injection Hrow as <-. split; [done|]. cbn.
    eexists _, geom. split; [done|]. split; [done|].
    by destruct (X row), (Y row).
  - destruct Hcontrol as [[[x Hx] [y Hy]]|Hne]; [|destruct Hsame; congruence].
    rewrite Hx, Hy in Hrow.
    apply bind_Ok in Hrow as (geom & Hgeom & Hrow).
    apply bind_Ok in Hrow as (b & Hb & Hrow).
    apply bind_Ok in Hrow as (f & Hf & Hrow).
    injection Hrow as <-. split; [cbn|].
    + destruct (decide (LLID_num row = b_prev_llid st)); [done|contradiction].
    + cbn. eexists _, geom. split; [done|]. split; [|done].
      unfold local in Hgeom. destruct (b_stream_geom st); [by injection Hgeom as ->|done].
Qed.

Lemma build_row_between st row st' (id : string) (d : Z) :
  open_at st id d ->
  LLID_num row = "" \/ (LLID_num row = id /\ no_xy row) ->
  build_row sync_coords_in_lat_long st row = Ok st' ->
  open_at st' id d.
Proof.
  intros (Hprev & b & geom & Hb & Hgeom & Hd) Hmid Hrow. unfold build_row in Hrow.
  destruct (decide (LLID_num row = "")) as [Hskip|Hid].
  - injection Hrow as <-. split; [done|]. by exists b, geom.
  - destruct Hmid as [Hmid|[Hmid Hno]]; [done|].
    cbn -[compute_adj_factor compute_xy_sync_point new_syncpt_using_survey_dist] in Hrow.
    rewrite decide_False in Hrow by (intros Hne; congruence).
    assert (Hst' : st' = {| b_dict := b_dict st; b_adj_factors := b_adj_factors st;
                b_prev_llid := b_prev_llid st; b_need_adj_factor := true;
                b_stream_geom := b_stream_geom st;
                b_begin_sync_point := b_begin_sync_point st;
                b_end_sync_point := None |}).
    { destruct Hno as [Hno|Hno]; rewrite Hno in Hrow.
      - by injection Hrow as <-.
      - destruct (X row); by injection Hrow as <-. }
    subst st'. split; [done|]. by exists b, geom.
Qed.

Lemma build_rows_between rows : forall st st' (id : string) (d : Z),
  open_at st id d ->
  Forall (fun row => LLID_num row = "" \/ (LLID_num row = id /\ no_xy row)) rows ->
  build_rows sync_coords_in_lat_long rows st = Ok st' ->
  open_at st' id d.
Proof.
  induction rows as [|row rows IH]; intros st st' id d Hopen Hmid Hrows.
  - by injection Hrows as <-.
  - cbn in Hrows. apply bind_Ok in Hrows as (st1 & Hrow & Hrows).
    apply Forall_cons in Hmid as [Hrow_mid Hmid].
    apply (IH st1 st' id d); [|done..].
    by apply (build_row_between st row).
Qed.

Lemma build_row_degenerate st row (id : string) (x y : F) :
  open_at st id (CUM_DIST row) ->
  id ≠ "" -> LLID_num row = id -> X row = Some x -> Y row = Some y ->
  build_row sync_coords_in_lat_long st row = Raise ZeroDivisionError.
Proof.
  intros (Hprev & b & geom & Hb & Hgeom & Hd) Hid Hrow Hx Hy. unfold build_row.
  rewrite decide_False by congruence.
  cbn -[compute_adj_factor compute_xy_sync_point new_syncpt_using_survey_dist].
  rewrite decide_False by (intros Hne; congruence).
  rewrite Hx, Hy, Hgeom, Hb. cbn [local mbind Result_bind].
  by rewrite compute_adj_factor_zero.
Qed.

(** C7. When a row with coordinates has the survey distance of the control
    point that opens the current segment of its stream ([r1]: a row with
    coordinates, or the first row of the stream, followed on that stream
    only by rows without coordinates), the builder raises
    [ZeroDivisionError] and returns no table; accordingly no built table has
    a closed segment of width zero. *)
Theorem equal_survey_distances_raise :
  (forall before r1 mid r2 after st (x y : F),
     build_rows sync_coords_in_lat_long (before ++ r1 :: mid) build_init = Ok st ->
     LLID_num r1 ≠ "" ->
     (is_Some (X r1) /\ is_Some (Y r1)) \/ last_llid before ≠ LLID_num r1 ->
     Forall (fun row => LLID_num row = "" \/ (LLID_num row = LLID_num r1 /\ no_xy row)) mid ->
     LLID_num r2 = LLID_num r1 -> X r2 = Some x -> Y r2 = Some y ->
     CUM_DIST r2 = CUM_DIST r1 ->
     build_streamlength_adjustment_factor_dictionary
       (before ++ r1 :: mid ++ r2 :: after) sync_coords_in_lat_long =
     Raise ZeroDivisionError) /\
  (forall rows (t : gmap string (StreamDistanceInfo F)) (id : string)
          (sdi : StreamDistanceInfo F) (b e : SyncPoint F) (f : F),
     build_streamlength_adjustment_factor_dictionary rows sync_coords_in_lat_long = Ok t ->
     t !! id = Some sdi -> (b, Some e, f) ∈ adj_factors sdi ->
     survey_cum_dist b ≠ survey_cum_dist e).
Proof.
  split.
  - intros before r1 mid r2 after st x y Hprefix Hid Hcontrol Hmid Hr2 Hx Hy Hdist.
    replace (before ++ r1 :: mid) with (before ++ [r1] ++ mid) in Hprefix by done.
    rewrite !build_rows_app in Hprefix.
    apply bind_Ok in Hprefix as (st0 & Hbefore & Hprefix).
    apply bind_Ok in Hprefix as (st1 & Hr1 & Hprefix).
    change (build_rows sync_coords_in_lat_long mid st1 = Ok st) in Hprefix.
    pose proof (build_rows_inv sync_coords_in_lat_long false before [] build_init st0
                  (build_inv_init false) ltac:(done) Hbefore) as (Hprev & _).
    cbn [app] in Hprev.
    assert (Hopen : open_at st (LLID_num r1) (CUM_DIST r1)).
    { apply (build_rows_between mid st1); [|done..].
      apply (build_row_control_point st0); [done..|].
      destruct Hcontrol as [Hxy|Hne]; [by left|right; congruence]. }
    unfold build_streamlength_adjustment_factor_dictionary.
    replace (before ++ r1 :: mid ++ r2 :: after)
      with (before ++ [r1] ++ mid ++ [r2] ++ after) by done.
    rewrite build_rows_app, Hbefore. cbn [mbind Result_bind build_rows app].
    rewrite Hr1. cbn [mbind Result_bind].
    rewrite build_rows_app, Hprefix. cbn [mbind Result_bind build_rows app].
    rewrite (build_row_degenerate st r2 (LLID_num r1) x y); [done| |done..].
    by rewrite Hdist.
  - intros rows t id sdi b e f Hbuild Hsdi Hin.
    destruct (build_finished sync_coords_in_lat_long false rows t ltac:(done) Hbuild)
      as [_ Hfin].
    destruct (Hfin id sdi Hsdi) as (_ & _ & first & block & p & _ & Hbuilt & _).
    by apply (compute_adj_factor_Ok b e f), (built_factors_closed p (adj_factors sdi)).
Qed.

End DegenerateSegment.

Lemma equal_survey_distances_raise_witness :
  build_streamlength_adjustment_factor_dictionary (GP := streams_north)
    [survey_row "100" 0 (Some (Q2Qc 0, Q2Qc 0));
     survey_row "100" 0 None;
     survey_row "100" 0 (Some (Q2Qc 0, Q2Qc 5))] false =
  Raise ZeroDivisionError.
Proof.
  eapply (proj1 (equal_survey_distances_raise (GP := streams_north) false)
            [] (survey_row "100" 0 (Some (Q2Qc 0, Q2Qc 0)))
            [survey_row "100" 0 None]
            (survey_row "100" 0 (Some (Q2Qc 0, Q2Qc 5))) []).
  - reflexivity.
  - done.
  - left. split; by eexists.
  - apply Forall_singleton. right. split; [done|]. by left.
  - done.
  - reflexivity.
  - reflexivity.
  - done.
Defined.

(** ** The sync points of a built table *)

Section SyncPointFacts.
Context {F : Type} {PF : PyFloat F}.
Implicit Types (factors closed tail : list (AdjFactor F)) (factor : AdjFactor F)
  (p q b e : SyncPoint F).






End SyncPointFacts.

Section ExactArithmetic.
Implicit Types (b e : SyncPoint Qc).



End ExactArithmetic.





(** ** The codec *)

Lemma replace_quote_app (s1 s2 : string) :
  replace_quote (s1 +:+ s2) = replace_quote s1 +:+ replace_quote s2.
Proof.
  induction s1 as [|c s1 IH]; [reflexivity|].
  change (String c s1 +:+ s2) with (String c (s1 +:+ s2)). cbn [replace_quote].
  destruct (Ascii.eqb c "'"); [exact IH|].
  change (String c (replace_quote s1) +:+ replace_quote s2)
    with (String c (replace_quote s1 +:+ replace_quote s2)).
  by rewrite IH.
Qed.

Lemma replace_quote_no_quote (s : string) : has_quote s = false -> replace_quote s = s.
Proof.
  induction s as [|c s IH]; [done|]. cbn [has_quote replace_quote].
  destruct (Ascii.eqb c "'"); [done|]. cbn [orb]. intros Hs. by rewrite IH.
Qed.

Lemma replace_quote_clean (s : string) : has_quote (replace_quote s) = false.
Proof.
  induction s as [|c s IH]; [done|]. cbn [replace_quote].
  destruct (Ascii.eqb c "'") eqn:Hc; [done|]. cbn [has_quote]. by rewrite Hc.
Qed.

Lemma replace_quote_format (stream_id : string) :
  replace_quote (format_quoted stream_id) = replace_quote stream_id.
Proof.
  unfold format_quoted. rewrite !replace_quote_app.
  change (replace_quote "'") with EmptyString.
  change (EmptyString +:+ replace_quote stream_id +:+ EmptyString)
    with (replace_quote stream_id +:+ EmptyString).
  induction (replace_quote stream_id) as [|c s IH]; [done|].
  change (String c s +:+ EmptyString) with (String c (s +:+ EmptyString)).
  by rewrite IH.
Qed.

Section Identifier.
Context {F : Type} {PF : PyFloat F} {PT : PyText F}.


End Identifier.


Section RowRoundTrip.
Context {F : Type} {PF : PyFloat F} {PT : PyText F}.
Hypothesis laws : PyTextLaws F.

Lemma py_int_str_int (n : Z) : py_int (str_int n) = Ok n.
Proof. unfold py_int. by rewrite (int_of_str_int F laws). Qed.

Lemma py_float_repr (x : F) : py_float (repr_float x) = Ok x.
Proof. unfold py_float. by rewrite (float_of_repr F laws). Qed.

Lemma py_float_str_int (n : Z) : py_float (str_int n) = Ok (float_of_int n).
Proof. unfold py_float. by rewrite (float_of_str_int F laws). Qed.

Lemma parse_float_or_NA_cell (v : option F) :
  parse_float_or_NA (csv_cell (float_or_None v)) = Ok v.
Proof.
  unfold parse_float_or_NA. destruct v as [x|]; cbn [float_or_None csv_cell].
  - rewrite decide_False by apply (repr_float_nonempty F laws).
    by rewrite py_float_repr.
  - by rewrite decide_True.
Qed.

Lemma parse_float_or_NA_empty : parse_float_or_NA "" = Ok None.
Proof. unfold parse_float_or_NA. by rewrite decide_True. Qed.

(** The cells of a row by name. *)
Lemma getattr_cells (c0 c1 c2 c3 c4 c5 c6 c7 c8 c9 c10 c11 c12 c13 c14 c15 : string) :
  let row := zip fieldnames [c0; c1; c2; c3; c4; c5; c6; c7; c8; c9; c10; c11; c12; c13; c14; c15] in
  Row fieldnames [c0; c1; c2; c3; c4; c5; c6; c7; c8; c9; c10; c11; c12; c13; c14; c15] = Ok row /\
  getattr row LLID = Ok c0 /\
  getattr row STREAMNAME = Ok c1 /\
  getattr row TRIB_TO_ = Ok c2 /\
  getattr row (BEGIN_ +:+ SURVEY_CUM_DISTANCE) = Ok c3 /\
  getattr row (BEGIN_ +:+ STREAMLINE_CUM_DISTANCE) = Ok c4 /\
  getattr row (BEGIN_ +:+ X_COORD) = Ok c5 /\
  getattr row (BEGIN_ +:+ Y_COORD) = Ok c6 /\
  getattr row (BEGIN_ +:+ XY_NOTE) = Ok c7 /\
  getattr row (BEGIN_ +:+ SURVEY_COMMENT) = Ok c8 /\
  getattr row (END_ +:+ SURVEY_CUM_DISTANCE) = Ok c9 /\
  getattr row (END_ +:+ STREAMLINE_CUM_DISTANCE) = Ok c10 /\
  getattr row (END_ +:+ X_COORD) = Ok c11 /\
  getattr row (END_ +:+ Y_COORD) = Ok c12 /\
  getattr row (END_ +:+ XY_NOTE) = Ok c13 /\
  getattr row (END_ +:+ SURVEY_COMMENT) = Ok c14 /\
  getattr row ADJ_FACTOR = Ok c15.
Proof. intros row. repeat split. Qed.

(** Reading the row written for an adjustment factor gives the location ID
    without its quotes, the names, and the factor, its open end replaced by
    the default end sync point. *)
Lemma read_sdi_row (stream_id : string) (sdi : StreamDistanceInfo F) (factor : AdjFactor F) :
  exists row,
    Row fieldnames (sdi_row stream_id sdi factor) = Ok row /\
    read_llid row = Ok (replace_quote stream_id) /\
    getattr row STREAMNAME = Ok (name sdi) /\
    getattr row TRIB_TO_ = Ok (trib_to sdi) /\
    read_adj_factor row = Ok (reload_adj_factor factor).
Proof.
  destruct factor as [[b e] f]. destruct b as [bx by_ bn bs bf bc].
  destruct e as [[ex ey en es ef ec]|];
    cbn [sdi_row chain_data_two_levels expand_sync_pt app fmap list_fmap csv_cell
         x_coord y_coord xy_note survey_cum_dist streamline_cum_dist survey_comment];
    match goal with
    | |- context [Row fieldnames [?c0; ?c1; ?c2; ?c3; ?c4; ?c5; ?c6; ?c7; ?c8; ?c9;
                                  ?c10; ?c11; ?c12; ?c13; ?c14; ?c15]] =>
        destruct (getattr_cells c0 c1 c2 c3 c4 c5 c6 c7 c8 c9 c10 c11 c12 c13 c14 c15)
          as (HRow & H0 & H1 & H2 & H3 & H4 & H5 & H6 & H7 & H8 & H9 & H10 & H11 &
              H12 & H13 & H14 & H15)
    end;
    eexists; (split; [exact HRow|]);
    (split; [unfold read_llid; rewrite H0; cbn [mbind Result_bind];
             by rewrite replace_quote_format|]);
    (split; [exact H1|]); (split; [exact H2|]);
    unfold read_adj_factor, read_sync_pt;
    rewrite H5, H6, H7, H3, H4, H8, H11, H12, H13, H9, H10, H14, H15;
    cbn [mbind Result_bind];
    rewrite ?parse_float_or_NA_cell, ?parse_float_or_NA_empty, ?py_int_str_int,
      ?py_float_repr, ?py_float_str_int;
    cbn [mbind Result_bind];
    rewrite ?parse_float_or_NA_cell, ?parse_float_or_NA_empty, ?py_int_str_int,
      ?py_float_repr, ?py_float_str_int;
    cbn [mbind Result_bind]; reflexivity.
Qed.

Lemma read_row_same (st : ReadState) (stream_id : string) (sdi : StreamDistanceInfo F)
    (factor : AdjFactor F) :
  r_prev_llid st = replace_quote stream_id ->
  read_row fieldnames st (sdi_row stream_id sdi factor) =
    Ok {| r_dict := alter (set_adj_factors (r_adj_factors st ++ [reload_adj_factor factor]))
                      (r_prev_llid st) (r_dict st);
          r_adj_factors := r_adj_factors st ++ [reload_adj_factor factor];
          r_prev_llid := r_prev_llid st |}.
Proof.
  intros Hprev. unfold read_row.
  destruct (read_sdi_row stream_id sdi factor) as (row & HRow & Hllid & _ & _ & Hf).
  rewrite HRow. cbn [mbind Result_bind]. rewrite Hllid. cbn [mbind Result_bind].
  rewrite decide_False by (intros Hne; by apply Hne).
  cbn [mbind Result_bind]. rewrite Hf. done.
Qed.

Lemma read_row_new (st : ReadState) (stream_id : string) (sdi : StreamDistanceInfo F)
    (factor : AdjFactor F) (d : gmap string (StreamDistanceInfo F)) :
  r_prev_llid st ≠ replace_quote stream_id ->
  (if decide (r_prev_llid st ≠ "") then
     add_adj_factors_to_sdi (r_dict st) (r_prev_llid st) (r_adj_factors st)
   else Ok (r_dict st)) = Ok d ->
  read_row fieldnames st (sdi_row stream_id sdi factor) =
    Ok {| r_dict := <[replace_quote stream_id :=
                       new_sdi_object (replace_quote stream_id) (name sdi) (trib_to sdi)
                         [reload_adj_factor factor]]> d;
          r_adj_factors := [reload_adj_factor factor];
          r_prev_llid := replace_quote stream_id |}.
Proof.
  intros Hprev Hd. unfold read_row.
  destruct (read_sdi_row stream_id sdi factor) as (row & HRow & Hllid & Hn & Ht & Hf).
  rewrite HRow. cbn [mbind Result_bind]. rewrite Hllid. cbn [mbind Result_bind].
  rewrite decide_True by done.
  rewrite Hd. cbn [mbind Result_bind]. rewrite Hn. cbn [mbind Result_bind].
  rewrite Ht. cbn [mbind Result_bind r_adj_factors r_prev_llid r_dict]. rewrite Hf.
  cbn [mbind Result_bind app]. f_equal. f_equal.
  by rewrite alter_insert_eq.
Qed.
Lemma read_rows_app (rows rows' : list (list string)) (st : ReadState) :
  read_rows fieldnames (rows ++ rows') st =
  read_rows fieldnames rows st ≫= read_rows fieldnames rows'.
Proof.
  revert st. induction rows as [|r rows IH]; intros st; [done|].
  cbn [app read_rows]. destruct (read_row fieldnames st r) as [st1|e]; [|done].
  cbn [mbind Result_bind]. apply IH.
Qed.

(** The other rows of a stream are appended to the list of its entry. *)
Lemma read_rows_rest (stream_id nm tr : string) (sdi : StreamDistanceInfo F)
    (factors : list (AdjFactor F)) :
  forall (adj : list (AdjFactor F)) (d : gmap string (StreamDistanceInfo F)),
  read_rows fieldnames (sdi_row stream_id sdi <$> factors)
    {| r_dict := <[replace_quote stream_id :=
                    new_sdi_object (replace_quote stream_id) nm tr adj]> d;
       r_adj_factors := adj;
       r_prev_llid := replace_quote stream_id |} =
  Ok {| r_dict := <[replace_quote stream_id :=
                     new_sdi_object (replace_quote stream_id) nm tr
                       (adj ++ (reload_adj_factor <$> factors))]> d;
        r_adj_factors := adj ++ (reload_adj_factor <$> factors);
        r_prev_llid := replace_quote stream_id |}.
Proof.
  induction factors as [|factor factors IH]; intros adj d.
  - cbn [fmap list_fmap read_rows]. by rewrite app_nil_r.
  - cbn [fmap list_fmap read_rows]. rewrite read_row_same by done.
    cbn [mbind Result_bind r_dict r_adj_factors r_prev_llid].
    rewrite alter_insert_eq.
    change (set_adj_factors (adj ++ [reload_adj_factor factor])
              (new_sdi_object (replace_quote stream_id) nm tr adj))
      with (new_sdi_object (replace_quote stream_id) nm tr
              (adj ++ [reload_adj_factor factor])).
    rewrite (IH (adj ++ [reload_adj_factor factor]) d).
    by rewrite <- !app_assoc.
Qed.

(** The list of the entry of the current stream is the list [adj_factors]. *)
Definition read_shared (st : ReadState) : Prop :=
  r_prev_llid st ≠ "" ->
  exists sdi : StreamDistanceInfo F,
    r_dict st !! r_prev_llid st = Some sdi /\ adj_factors sdi = r_adj_factors st.

Lemma read_shared_store (st : ReadState) :
  read_shared st -> r_prev_llid st ≠ "" ->
  add_adj_factors_to_sdi (r_dict st) (r_prev_llid st) (r_adj_factors st) = Ok (r_dict st).
Proof.
  intros Hshared Hne. destruct (Hshared Hne) as (sdi & Hsdi & Hadj).
  unfold add_adj_factors_to_sdi, dict_getitem. rewrite Hsdi. cbn [mbind Result_bind].
  f_equal. apply insert_id. rewrite Hsdi. f_equal.
  destruct sdi. cbn in Hadj. by subst.
Qed.

(** A stream as the writer lists it: a location ID without quote, the entry
    of that ID, with at least one adjustment factor. *)
Definition written (group : string * StreamDistanceInfo F) : Prop :=
  has_quote group.1 = false /\ group.1 ≠ "" /\ llid group.2 = group.1 /\
  adj_factors group.2 ≠ [].

Definition rows_of (groups : list (string * StreamDistanceInfo F)) : list (list string) :=
  groups ≫= fun group => sdi_row group.1 group.2 <$> adj_factors group.2.

Lemma rows_of_cons (stream_id : string) (sdi : StreamDistanceInfo F)
    (groups : list (string * StreamDistanceInfo F)) :
  rows_of ((stream_id, sdi) :: groups) =
  (sdi_row stream_id sdi <$> adj_factors sdi) ++ rows_of groups.
Proof. reflexivity. Qed.

Lemma read_rows_group (st : ReadState) (stream_id : string) (sdi : StreamDistanceInfo F) :
  read_shared st -> written (stream_id, sdi) -> r_prev_llid st ≠ stream_id ->
  read_rows fieldnames (sdi_row stream_id sdi <$> adj_factors sdi) st =
  Ok {| r_dict := <[stream_id := reload_sdi sdi]> (r_dict st);
        r_adj_factors := reload_adj_factor <$> adj_factors sdi;
        r_prev_llid := stream_id |}.
Proof.
  intros Hshared (Hq & Hne & Hllid & Hadj) Hprev. cbn [fst snd] in *.
  destruct (adj_factors sdi) as [|factor factors] eqn:Hfactors; [done|].
  assert (Hd : (if decide (r_prev_llid st ≠ "") then
                  add_adj_factors_to_sdi (r_dict st) (r_prev_llid st) (r_adj_factors st)
                else Ok (r_dict st)) = Ok (r_dict st)).
  { destruct (decide (r_prev_llid st ≠ "")); [by apply read_shared_store|done]. }
  pose proof (replace_quote_no_quote stream_id Hq) as Hid.
  cbn [fmap list_fmap read_rows].
  rewrite (read_row_new st stream_id sdi factor (r_dict st)) by (by rewrite ?Hid).
  cbn [mbind Result_bind].
  rewrite (read_rows_rest stream_id (name sdi) (trib_to sdi) sdi factors
             [reload_adj_factor factor] (r_dict st)).
  rewrite Hid. f_equal. f_equal. f_equal.
  unfold reload_sdi, set_adj_factors, new_sdi_object. by rewrite Hllid, Hfactors.
Qed.

Lemma read_rows_groups (groups : list (string * StreamDistanceInfo F)) :
  forall st : ReadState,
  read_shared st -> NoDup groups.*1 -> r_prev_llid st ∉ groups.*1 ->
  Forall written groups ->
  exists st',
    read_rows fieldnames (rows_of groups) st = Ok st' /\
    read_shared st' /\
    r_dict st' = (reload_sdi <$> list_to_map groups) ∪ r_dict st /\
    (groups ≠ [] -> r_prev_llid st' ≠ "").
Proof.
  induction groups as [|[stream_id sdi] groups IH]; intros st Hshared Hnodup Hprev Hwritten.
  - exists st. split; [done|]. split; [done|]. split; [|done].
    cbn. by rewrite fmap_empty, (left_id_L ∅ (∪)).
  - rewrite fmap_cons in Hnodup, Hprev. cbn [fst] in Hnodup, Hprev.
    apply NoDup_cons in Hnodup as [Hfresh Hnodup].
    apply Forall_cons in Hwritten as [Hw Hwritten].
    apply not_elem_of_cons in Hprev as [Hprev _].
    rewrite rows_of_cons, read_rows_app.
    rewrite (read_rows_group st stream_id sdi) by done. cbn [mbind Result_bind].
    destruct (IH {| r_dict := <[stream_id := reload_sdi sdi]> (r_dict st);
                    r_adj_factors := reload_adj_factor <$> adj_factors sdi;
                    r_prev_llid := stream_id |})
      as (st' & Hrows & Hshared' & Hdict & Hne); [|done..|].
    { intros _. exists (reload_sdi sdi). cbn. by rewrite lookup_insert_eq. }
    exists st'. split; [exact Hrows|]. split; [done|]. split.
    + rewrite Hdict. cbn [r_dict list_to_map foldr uncurry fst snd].
      rewrite fmap_insert, <- insert_union_l.
      symmetry. apply insert_union_r. rewrite lookup_fmap.
      by rewrite (not_elem_of_list_to_map_1 _ _ Hfresh).
    + intros _. destruct groups as [|group groups].
      * cbn in Hrows. injection Hrows as <-. cbn. by destruct Hw as (_ & ? & _).
      * by apply Hne.
Qed.
(** The streams of a table in the order the writer lists them. *)
Definition groups_of (t : gmap string (StreamDistanceInfo F)) (keys : list string)
  : list (string * StreamDistanceInfo F) :=
  omap (fun k => pair k <$> t !! k) keys.

Lemma write_rows_groups (t : gmap string (StreamDistanceInfo F)) (keys : list string) :
  keys ≫= sdi_rows t = rows_of (groups_of t keys).
Proof.
  induction keys as [|k keys IH]; [done|].
  cbn [mbind list_bind]. unfold groups_of. cbn [omap list_omap]. unfold sdi_rows at 1.
  destruct (t !! k) as [sdi|]; cbn [fmap option_fmap option_map].
  - rewrite rows_of_cons. f_equal. exact IH.
  - exact IH.
Qed.

Lemma groups_of_keys (t : gmap string (StreamDistanceInfo F)) (keys : list string) :
  (forall k, k ∈ keys -> is_Some (t !! k)) -> (groups_of t keys).*1 = keys.
Proof.
  induction keys as [|k keys IH]; intros Hkeys; [done|].
  unfold groups_of. cbn [omap list_omap].
  destruct (Hkeys k ltac:(by left)) as [sdi Hsdi]. rewrite Hsdi.
  cbn [fmap option_fmap option_map]. rewrite fmap_cons. cbn [fst]. f_equal.
  apply IH. intros k' Hk'. apply Hkeys. by right.
Qed.

Lemma groups_of_elem (t : gmap string (StreamDistanceInfo F)) (keys : list string)
    (k : string) (sdi : StreamDistanceInfo F) :
  (k, sdi) ∈ groups_of t keys <-> k ∈ keys /\ t !! k = Some sdi.
Proof.
  unfold groups_of. rewrite list_elem_of_omap. split.
  - intros (k' & Hk' & Hpair). destruct (t !! k') as [sdi'|] eqn:Hsdi'; [|done].
    cbn in Hpair. by injection Hpair as -> ->.
  - intros [Hk Hsdi]. exists k. split; [done|]. by rewrite Hsdi.
Qed.

Lemma sorted_keys (t : gmap string (StreamDistanceInfo F)) :
  NoDup (sorted t) /\ forall k, k ∈ sorted t <-> is_Some (t !! k).
Proof.
  unfold sorted. split.
  - rewrite merge_sort_Permutation. apply NoDup_fst_map_to_list.
  - intros k. rewrite merge_sort_Permutation, list_elem_of_fmap. split.
    + intros ([k' sdi] & -> & Hin). apply elem_of_map_to_list in Hin. by exists sdi.
    + intros [sdi Hsdi]. exists (k, sdi). split; [done|]. by apply elem_of_map_to_list.
Qed.

(** A table whose location IDs have no quote and whose streams have an
    adjustment factor is read back from its file, the open ends replaced by
    the default end sync point. *)
Lemma read_write (t : gmap string (StreamDistanceInfo F)) :
  t ≠ ∅ ->
  (forall k sdi, t !! k = Some sdi -> written (k, sdi)) ->
  read_sdi_from_csvfile (write_sdi_to_csv_file t) = Ok (reload_sdi <$> t).
Proof.
  intros Hne Hwritten. unfold write_sdi_to_csv_file, read_sdi_from_csvfile.
  destruct (sorted_keys t) as [Hnodup Hkeys].
  rewrite write_rows_groups.
  assert (Hfst : (groups_of t (sorted t)).*1 = sorted t).
  { apply groups_of_keys. intros k. apply Hkeys. }
  destruct (read_rows_groups (groups_of t (sorted t)) read_init)
    as (st' & -> & Hshared & Hdict & Hprev).
  - by intros ?.
  - by rewrite Hfst.
  - rewrite Hfst. cbn. intros Hin. apply Hkeys in Hin as [sdi Hsdi].
    by destruct (Hwritten _ _ Hsdi) as (_ & ? & _).
  - apply Forall_forall. intros [k sdi] Hin.
    apply groups_of_elem in Hin as [_ Hsdi]. by apply Hwritten.
  - cbn [mbind Result_bind].
    assert (Hgroups : groups_of t (sorted t) ≠ []).
    { intros Hnil. apply Hne. apply map_empty. intros k.
      destruct (t !! k) as [sdi|] eqn:Hsdi; [|done].
      assert (Hin : (k, sdi) ∈ groups_of t (sorted t)).
      { apply groups_of_elem. split; [|done]. apply Hkeys. by exists sdi. }
      rewrite Hnil in Hin. by apply elem_of_nil in Hin. }
    rewrite read_shared_store by auto. f_equal. rewrite Hdict.
    cbn [read_init r_dict]. rewrite (right_id_L ∅ (∪)). f_equal.
    apply map_eq. intros k. apply option_eq. intros sdi.
    rewrite <- elem_of_list_to_map by by rewrite Hfst.
    rewrite groups_of_elem, Hkeys. split; [by intros [_ ?]|].
    intros Hsdi. split; [by exists sdi|done].
Qed.
End RowRoundTrip.

(** ** The text of numbers *)

Lemma int_of_decimal_of_int (n : Z) : int_of_decimal (decimal_of_int n) = Some n.
Proof.
  unfold int_of_decimal, decimal_of_int.
  rewrite NilZero.isi.
  - cbn. by rewrite DecimalZ.of_to.
  - destruct n; cbn; [done| |done]. intros [= Hnil]. by apply Unsigned.to_uint_nonnil in Hnil.
  - destruct n; cbn; [done..|]. intros [= Hnil]. by apply Unsigned.to_uint_nonnil in Hnil.
Qed.

Lemma split_slash_uint (d : Decimal.uint) :
  split_slash (NilEmpty.string_of_uint d) = (NilEmpty.string_of_uint d, None).
Proof. induction d; cbn; [done|by rewrite IHd..]. Qed.

Lemma split_slash_decimal (n : Z) :
  split_slash (decimal_of_int n) = (decimal_of_int n, None).
Proof.
  unfold decimal_of_int.
  assert (Hu : forall d, split_slash (NilZero.string_of_uint d) =
                         (NilZero.string_of_uint d, None)).
  { intros d. destruct d; try apply split_slash_uint. done. }
  destruct (Z.to_int n) as [d|d]; cbn [NilZero.string_of_int]; [apply Hu|].
  cbn [split_slash]. change (Ascii.eqb "-" "/") with false. cbn iota. by rewrite Hu.
Qed.

Lemma split_slash_app (num den : string) :
  split_slash num = (num, None) ->
  split_slash (num +:+ String "/" den) = (num, Some den).
Proof.
  induction num as [|c num IH]; intros Hnum; [done|].
  change (String c num +:+ String "/" den) with (String c (num +:+ String "/" den)).
  cbn [split_slash] in *. destruct (Ascii.eqb c "/"); [done|].
  destruct (split_slash num) as [num' den'] eqn:Hsplit.
  injection Hnum as -> ->. by rewrite IH.
Qed.

Lemma Q2Qc_this (x : Qc) : Q2Qc (Qnum x # Qden x) = x.
Proof.
  apply Qc_is_canon. destruct x as [[n d] Hcanon]. cbn. apply Qred_correct.
Qed.

Lemma Qc_PyTextLaws : PyTextLaws Qc.
Proof.
  split.
  - exact int_of_decimal_of_int.
  - intros x. cbn [float_of_str repr_float Qc_PyText]. unfold Qc_of_fraction, fraction_of_Qc.
    rewrite split_slash_app by apply split_slash_decimal.
    rewrite !int_of_decimal_of_int. cbn. by rewrite Q2Qc_this.
  - intros n. cbn [float_of_str str_int Qc_PyText float_of_int Qc_PyFloat].
    unfold Qc_of_fraction. rewrite split_slash_decimal, int_of_decimal_of_int. done.
  - intros x. cbn [repr_float Qc_PyText]. unfold fraction_of_Qc.
    by destruct (decimal_of_int (Qnum x)).
Qed.

(** C2 (as the code has it). A table produced by the builder whose location
    IDs contain no single quote is read back from the file written for it
    with the same location IDs and, for each of them, the same names and the
    same adjustment factors in the same order, with the same begin sync
    point, end sync point and factor, except that an open end is read back
    as a sync point: at the default end distance 999999 for both distances,
    without coordinates, with empty notes. The numbers are read back as they
    were when reading the text of a number gives that number. *)
Theorem built_table_read_back {F : Type} {PF : PyFloat F} {PT : PyText F}
    {GP : GeometryProvider F} (rows : list (SurveyRow F))
    (sync_coords_in_lat_long : bool) (t : gmap string (StreamDistanceInfo F)) :
  PyTextLaws F ->
  build_streamlength_adjustment_factor_dictionary rows sync_coords_in_lat_long = Ok t ->
  (forall k, is_Some (t !! k) -> has_quote k = false) ->
  read_sdi_from_csvfile (write_sdi_to_csv_file t) = Ok (reload_sdi <$> t).
Proof.
  intros laws Hbuild Hquote.
  destruct (build_finished sync_coords_in_lat_long false rows t ltac:(done) Hbuild)
    as [Hne Hfin].
  apply (read_write laws); [done|].
  intros k sdi Hsdi.
  destruct (Hfin k sdi Hsdi) as (Hk & Hllid & first & block & p & _ & Hbuilt & _).
  split; [by apply Hquote|]. split; [done|]. split; [done|].
  by apply (built_factors_nonempty p).
Qed.

Lemma built_table_read_back_witness :
  read_sdi_from_csvfile (write_sdi_to_csv_file (elk_creek (F := Qc) open_end_factors)) =
  Ok (reload_sdi <$> elk_creek open_end_factors).
Proof.
  apply (built_table_read_back (GP := streams_north) open_end_rows false).
  - exact Qc_PyTextLaws.
  - vm_compute. reflexivity.
  - intros k [sdi Hsdi]. unfold elk_creek in Hsdi.
    apply lookup_singleton_Some in Hsdi as [<- _]. reflexivity.
Defined.

(** The table built for the location ID [1''2] is read back with the one
    location ID [12]. *)
Lemma quoted_llid_not_read_back :
  exists t t',
    build_streamlength_adjustment_factor_dictionary (GP := streams_north)
      quoted_rows false = Ok t /\
    read_sdi_from_csvfile (write_sdi_to_csv_file t) = Ok t' /\
    is_Some (t !! "1''2") /\ t' !! "1''2" = None /\ is_Some (t' !! "12").
Proof.
  eexists _, _. split; [vm_compute; reflexivity|].
  split; [vm_compute; reflexivity|].
  split; [by eexists|]. split; [reflexivity|by eexists].
Qed.

Section ReaderEnds.
Context {F : Type} {PF : PyFloat F} {PT : PyText F}.
Implicit Types (st : @ReadState F) (d : gmap string (StreamDistanceInfo F)).

Definition all_ended (factors : list (AdjFactor F)) : Prop :=
  Forall (fun factor => is_Some (af_end factor)) factors.

Definition dict_ended d : Prop :=
  forall k sdi, d !! k = Some sdi -> all_ended (adj_factors sdi).

Lemma read_adj_factor_ended (row : list (string * string)) (factor : AdjFactor F) :
  read_adj_factor row = Ok factor -> is_Some (af_end factor).
Proof.
  unfold read_adj_factor. intros Hread.
  apply bind_Ok in Hread as (b & _ & Hread).
  apply bind_Ok in Hread as (e & _ & Hread).
  apply bind_Ok in Hread as (c & _ & Hread).
  apply bind_Ok in Hread as (f & _ & Hread).
  injection Hread as <-. by exists e.
Qed.

Lemma add_adj_factors_ended d (k : string) (factors : list (AdjFactor F)) d' :
  dict_ended d -> all_ended factors ->
  add_adj_factors_to_sdi d k factors = Ok d' -> dict_ended d'.
Proof.
  intros Hd Hfactors Hadd. unfold add_adj_factors_to_sdi in Hadd.
  apply bind_Ok in Hadd as (sdi0 & _ & [= <-]).
  intros k' sdi Hsdi. destruct (decide (k = k')) as [->|Hne].
  - rewrite lookup_insert_eq in Hsdi. by injection Hsdi as <-.
  - rewrite lookup_insert_ne in Hsdi by done. by apply (Hd k').
Qed.

Lemma read_row_ended (headings : list string) st (r : list string) st' :
  dict_ended (r_dict st) -> all_ended (r_adj_factors st) ->
  read_row headings st r = Ok st' ->
  dict_ended (r_dict st') /\ all_ended (r_adj_factors st').
Proof.
  intros Hd Hadj Hrow. unfold read_row in Hrow.
  apply bind_Ok in Hrow as (row & _ & Hrow).
  apply bind_Ok in Hrow as (new_llid & _ & Hrow).
  apply bind_Ok in Hrow as (st1 & Hst1 & Hrow).
  apply bind_Ok in Hrow as (factor & Hfactor & [= <-]).
  assert (H1 : dict_ended (r_dict st1) /\ all_ended (r_adj_factors st1)).
  { destruct (decide (new_llid ≠ r_prev_llid st)); [|by injection Hst1 as <-].
    apply bind_Ok in Hst1 as (d & Hdict & Hst1).
    apply bind_Ok in Hst1 as (streamname & _ & Hst1).
    apply bind_Ok in Hst1 as (trib & _ & [= <-]).
    split; [|constructor]. cbn [r_dict].
    assert (Hd' : dict_ended d).
    { destruct (decide (r_prev_llid st ≠ "")); [|by injection Hdict as <-].
      by apply (add_adj_factors_ended (r_dict st) (r_prev_llid st) (r_adj_factors st)). }
    intros k sdi Hsdi. destruct (decide (new_llid = k)) as [->|Hne].
    - rewrite lookup_insert_eq in Hsdi. injection Hsdi as <-. constructor.
    - rewrite lookup_insert_ne in Hsdi by done. by apply (Hd' k). }
  destruct H1 as [Hd1 Hadj1].
  assert (Hnew : all_ended (r_adj_factors st1 ++ [factor])).
  { apply Forall_app. split; [done|]. apply Forall_singleton.
    by apply (read_adj_factor_ended row). }
  split; [|done]. cbn [r_dict].
  intros k sdi Hsdi. destruct (decide (r_prev_llid st1 = k)) as [Heq|Hne].
  - rewrite Heq, lookup_alter_eq in Hsdi.
    destruct (r_dict st1 !! k) as [sdi1|]; [|done]. by injection Hsdi as <-.
  - rewrite lookup_alter_ne in Hsdi by done. by apply (Hd1 k).
Qed.

Lemma read_rows_ended (headings : list string) (rows : list (list string)) :
  forall st st',
  dict_ended (r_dict st) -> all_ended (r_adj_factors st) ->
  read_rows headings rows st = Ok st' ->
  dict_ended (r_dict st') /\ all_ended (r_adj_factors st').
Proof.
  induction rows as [|r rows IH]; intros st st' Hd Hadj Hrows.
  - by injection Hrows as <-.
  - cbn [read_rows] in Hrows. apply bind_Ok in Hrows as (st1 & Hrow & Hrows).
    destruct (read_row_ended headings st r st1 Hd Hadj Hrow) as [Hd1 Hadj1].
    by apply (IH st1).
Qed.

(** No table read from a file has an open end. *)
Lemma read_sdi_ended (sdi_file : list (list string)) d :
  read_sdi_from_csvfile sdi_file = Ok d -> dict_ended d.
Proof.
  unfold read_sdi_from_csvfile. destruct sdi_file as [|headings rows]; [done|].
  intros Hread. apply bind_Ok in Hread as (st & Hrows & Hadd).
  destruct (read_rows_ended headings rows read_init st) as [Hd Hadj]; [|constructor|done|].
  { intros k sdi Hsdi. cbn [read_init r_dict] in Hsdi. by rewrite lookup_empty in Hsdi. }
  by apply (add_adj_factors_ended (r_dict st) (r_prev_llid st) (r_adj_factors st)).
Qed.

(** C9. The reader makes a sync point of the end of every row: no segment of
    a table read from a file has an absent end. The row written for an
    open-ended segment is read back with the end sync point at the default
    end distance 999999, as survey distance and as streamline distance,
    without coordinates; the range of such a segment, as the referencer
    tests it, stops at 999999. *)
Theorem open_end_read_as_default :
  (forall (sdi_file : list (list string)) d (k : string) (sdi : StreamDistanceInfo F)
          (factor : AdjFactor F),
     read_sdi_from_csvfile sdi_file = Ok d -> d !! k = Some sdi ->
     factor ∈ adj_factors sdi -> is_Some (af_end factor)) /\
  (PyTextLaws F ->
   forall (stream_id : string) (sdi : StreamDistanceInfo F) (b : SyncPoint F) (f : F),
     Row fieldnames (sdi_row stream_id sdi (b, None, f)) ≫= read_adj_factor =
       Ok (b, Some default_end_sync_pt, f)) /\
  (survey_cum_dist (default_end_sync_pt (F := F)) = 999999 /\
   streamline_cum_dist (default_end_sync_pt (F := F)) = float_of_int 999999 /\
   x_coord (default_end_sync_pt (F := F)) = None /\
   y_coord (default_end_sync_pt (F := F)) = None) /\
  (forall (b : SyncPoint F) (sd : Z),
     in_segment (survey_cum_dist b) sd (survey_cum_dist (default_end_sync_pt (F := F))) = true
     <-> survey_cum_dist b <= sd <= 999999).
Proof.
  split; [|split; [|split; [done|]]].
  - intros sdi_file d k sdi factor Hread Hsdi Hin.
    pose proof (read_sdi_ended sdi_file d Hread k sdi Hsdi) as Hended.
    unfold all_ended in Hended. rewrite Forall_forall in Hended. by apply Hended.
  - intros laws stream_id sdi b f.
    destruct (read_sdi_row laws stream_id sdi (b, None, f)) as (row & -> & _ & _ & _ & Hf).
    exact Hf.
  - intros b sd. apply in_segment_true.
Qed.
End ReaderEnds.

Lemma open_end_read_as_default_witness :
  is_Some (af_end (F := Qc)
             (xy_point 1000 0 1100 1100, Some default_end_sync_pt, DEFAULT_ADJ_FACTOR)) /\
  Row fieldnames
    (sdi_row (F := Qc) "100" (new_sdi_object "100" "Elk Creek" "Nestucca River" [])
       (xy_point 1000 0 1100 1100, None, DEFAULT_ADJ_FACTOR)) ≫= read_adj_factor =
  Ok (xy_point 1000 0 1100 1100, Some default_end_sync_pt, DEFAULT_ADJ_FACTOR).
Proof.
  split.
  - apply (proj1 (open_end_read_as_default (F := Qc))
             (write_sdi_to_csv_file (elk_creek open_end_factors))
             (reload_sdi <$> elk_creek open_end_factors) "100"
             (reload_sdi (new_sdi_object "100" "Elk Creek" "Nestucca River" open_end_factors))).
    + exact built_table_read_back_witness.
    + reflexivity.
    + right. by left.
  - apply (proj1 (proj2 (open_end_read_as_default (F := Qc)))). exact Qc_PyTextLaws.
Defined.

(** * Further properties of the scripts *)

(** ** The builder: entries, streams and errors *)

Section BuilderSurface.
Context {F : Type} {PF : PyFloat F} {GP : GeometryProvider F}.
Variable sync_coords_in_lat_long : bool.
Implicit Types (rows done : list (SurveyRow F)) (row : SurveyRow F) (st : @BuildState F GP).

(** X1. Every table the builder returns has a stream, and every entry of
    it is under a location ID that is not empty, holds that location ID, and
    has at least one segment; a segment without end is the last of its
    stream and has the default factor; the factor of a segment with an end
    is the quotient of the streamline distance by the survey distance
    between its sync points. *)
Theorem built_entries rows (t : gmap string (StreamDistanceInfo F)) :
  build_streamlength_adjustment_factor_dictionary rows sync_coords_in_lat_long = Ok t ->
  t ≠ ∅ /\
  forall (k : string) (sdi : StreamDistanceInfo F), t !! k = Some sdi ->
    k ≠ "" /\ llid sdi = k /\ adj_factors sdi ≠ [] /\
    (forall (b : SyncPoint F) (f : F), (b, None, f) ∈ adj_factors sdi ->
       f = DEFAULT_ADJ_FACTOR /\ last (adj_factors sdi) = Some (b, None, f)) /\
    (forall (b e : SyncPoint F) (f : F), (b, Some e, f) ∈ adj_factors sdi ->
       f = float_div (float_sub (streamline_cum_dist e) (streamline_cum_dist b))
             (float_of_int (survey_cum_dist e - survey_cum_dist b))).
Proof.
  intros Hbuild.
  destruct (build_finished sync_coords_in_lat_long false rows t ltac:(done) Hbuild)
    as [Hne Hfin].
  split; [done|]. intros k sdi Hsdi.
  destruct (Hfin k sdi Hsdi) as (Hk & Hllid & first & block & p & _ & Hbuilt & _).
  split; [done|]. split; [done|]. split; [by apply (built_factors_nonempty p)|]. split.
  - intros b f Hin. by apply (built_factors_open p).
  - intros b e f Hin.
    by apply (compute_adj_factor_Ok b e f), (built_factors_closed p (adj_factors sdi)).
Qed.





End BuilderSurface.

Lemma built_entries_witness :
  build_streamlength_adjustment_factor_dictionary (GP := streams_north)
    (open_end_rows (F := Qc)) false = Ok (elk_creek open_end_factors) /\
  elk_creek (F := Qc) open_end_factors ≠ ∅.
Proof.
  assert (Hbuild : build_streamlength_adjustment_factor_dictionary (GP := streams_north)
                     (open_end_rows (F := Qc)) false = Ok (elk_creek open_end_factors))
    by (vm_compute; reflexivity).
  split; [exact Hbuild|].
  exact (proj1 (built_entries (GP := streams_north) false open_end_rows _ Hbuild)).
Defined.



Section BuilderStreams.
Context {F : Type} {PF : PyFloat F} {GP : GeometryProvider F}.
Variable sync_coords_in_lat_long : bool.
Implicit Types (rows done : list (SurveyRow F)) (row : SurveyRow F) (st : @BuildState F GP)
  (d : gmap string (StreamDistanceInfo F)).

Lemma named_after_snoc done row (k : string) (sdi : StreamDistanceInfo F) :
  named_after done k sdi -> named_after (done ++ [row]) k sdi.
Proof.
  intros (Hk & r & Hr & Hrest). split; [done|]. exists r.
  split; [apply elem_of_app; by left|done].
Qed.

Lemma add_adj_factors_streams d (k : string) (factors : list (AdjFactor F)) d' :
  add_adj_factors_to_sdi d k factors = Ok d' ->
  forall k' : string,
    (is_Some (d !! k') <-> is_Some (d' !! k')) /\
    forall sdi', d' !! k' = Some sdi' ->
      exists sdi, d !! k' = Some sdi /\ name sdi' = name sdi /\ trib_to sdi' = trib_to sdi.
Proof.
  intros Hadd k'. unfold add_adj_factors_to_sdi, dict_getitem in Hadd.
  destruct (d !! k) as [sdi0|] eqn:Hk; [|done]. injection Hadd as <-.
  destruct (decide (k = k')) as [<-|Hne].
  - rewrite lookup_insert_eq, Hk. split; [split; by eexists|].
    intros sdi' [= <-]. by exists sdi0.
  - rewrite lookup_insert_ne by done. split; [done|]. intros sdi' Hsdi'. by exists sdi'.
Qed.

Lemma build_row_streams done st row st' :
  build_streams done st ->
  build_row sync_coords_in_lat_long st row = Ok st' ->
  build_streams (done ++ [row]) st'.
Proof.
  intros (Hnamed & Hrows & Hprev) Hrow. unfold build_row in Hrow.
  destruct (decide (LLID_num row = "")) as [Hskip|Hid].
  { injection Hrow as <-. split; [|split; [|done]].
    - intros k sdi Hsdi. by apply named_after_snoc, Hnamed.
    - intros r Hr Hne. apply elem_of_app in Hr as [Hr|Hr]; [by apply Hrows|].
      apply list_elem_of_singleton in Hr as ->. done. }
  cbn -[compute_adj_factor compute_xy_sync_point new_syncpt_using_survey_dist] in Hrow.
  destruct (decide (LLID_num row ≠ b_prev_llid st)) as [Hnew|Hsame].
  - apply bind_Ok in Hrow as (d & Hd & Hrow).
    apply bind_Ok in Hrow as (geom & _ & [= <-]).
    unfold build_streams. cbn [b_dict b_prev_llid].
    assert (Hsame : forall k' : string,
              (is_Some (b_dict st !! k') <-> is_Some (d !! k')) /\
              forall sdi', d !! k' = Some sdi' ->
                exists sdi, b_dict st !! k' = Some sdi /\
                  name sdi' = name sdi /\ trib_to sdi' = trib_to sdi).
    { destruct (decide (b_prev_llid st ≠ "")).
      - apply bind_Ok in Hd as (factors & _ & Hadd).
        by apply (add_adj_factors_streams _ _ _ _ Hadd).
      - injection Hd as <-. intros k'. split; [done|]. intros sdi' ?. by exists sdi'. }
    split; [|split].
    + intros k sdi Hsdi. destruct (decide (LLID_num row = k)) as [<-|Hne].
      * rewrite lookup_insert_eq in Hsdi. injection Hsdi as <-.
        split; [done|]. exists row.
        split; [apply elem_of_app; right; by left|done].
      * rewrite lookup_insert_ne in Hsdi by done.
        destruct (Hsame k) as [_ Hname]. destruct (Hname sdi Hsdi) as (sdi0 & Hsdi0 & Hn & Ht).
        apply named_after_snoc. destruct (Hnamed k sdi0 Hsdi0) as (Hk & r & Hr & Hl & Hn0 & Ht0).
        split; [done|]. exists r. split; [done|]. split; [done|]. split; congruence.
    + intros r Hr Hne. destruct (decide (LLID_num row = LLID_num r)) as [Heq|Hdiff].
      * rewrite <- Heq, lookup_insert_eq. by eexists.
      * rewrite lookup_insert_ne by done. apply Hsame.
        apply elem_of_app in Hr as [Hr|Hr]; [by apply Hrows|].
        apply list_elem_of_singleton in Hr as ->. done.
    + intros _. rewrite lookup_insert_eq. by eexists.
  - apply dec_stable in Hsame.
    assert (Hp : is_Some (b_dict st !! b_prev_llid st)).
    { apply Hprev. by rewrite <- Hsame. }
    assert (Hkeep : build_streams (done ++ [row])
              {| b_dict := b_dict st; b_adj_factors := b_adj_factors st;
                 b_prev_llid := b_prev_llid st; b_need_adj_factor := true;
                 b_stream_geom := b_stream_geom st;
                 b_begin_sync_point := b_begin_sync_point st;
                 b_end_sync_point := None |}).
    { split; [|split; [|done]]; cbn [b_dict b_prev_llid].
      - intros k sdi Hsdi. by apply named_after_snoc, Hnamed.
      - intros r Hr Hne. apply elem_of_app in Hr as [Hr|Hr]; [by apply Hrows|].
        apply list_elem_of_singleton in Hr as ->. by rewrite Hsame. }
    destruct (X row) as [x|]; [|by injection Hrow as <-].
    destruct (Y row) as [y|]; [|by injection Hrow as <-].
    apply bind_Ok in Hrow as (geom & _ & Hrow).
    apply bind_Ok in Hrow as (b & _ & Hrow).
    apply bind_Ok in Hrow as (f & _ & [= <-]).
    destruct Hkeep as (Hnamed' & Hrows' & _). cbn [b_dict b_prev_llid] in *.
    unfold append_shared, build_streams. cbn [b_dict b_prev_llid]. split; [|split].
    + intros k sdi Hsdi. destruct (decide (b_prev_llid st = k)) as [Heq|Hne].
      * rewrite Heq, lookup_alter_eq in Hsdi.
        destruct (b_dict st !! k) as [sdi0|] eqn:Hsdi0; [|done]. injection Hsdi as <-.
        destruct (Hnamed' k sdi0 Hsdi0) as (Hk & r & Hr & Hrest).
        split; [done|]. by exists r.
      * rewrite lookup_alter_ne in Hsdi by done. by apply Hnamed'.
    + intros r Hr Hne. rewrite lookup_alter_is_Some. by apply Hrows'.
    + intros _. by rewrite lookup_alter_is_Some.
Qed.

Lemma build_rows_streams rows : forall done st st',
  build_streams done st ->
  build_rows sync_coords_in_lat_long rows st = Ok st' ->
  build_streams (done ++ rows) st'.
Proof.
  induction rows as [|row rows IH]; intros done st st' Hinv Hrows.
  - injection Hrows as <-. by rewrite app_nil_r.
  - cbn [build_rows] in Hrows. apply bind_Ok in Hrows as (st1 & Hrow & Hrows).
    replace (done ++ row :: rows) with ((done ++ [row]) ++ rows) by by rewrite <- app_assoc.
    apply (IH _ st1); [|done]. by apply (build_row_streams done st).
Qed.

(** X2. The streams of a built table are those of the survey file: a
    location ID has an entry exactly when it is not empty and is that of
    some row, and the entry has the stream name and the tributary name of a
    row of that stream. *)
Theorem built_streams rows (t : gmap string (StreamDistanceInfo F)) (k : string) :
  build_streamlength_adjustment_factor_dictionary rows sync_coords_in_lat_long = Ok t ->
  (is_Some (t !! k) <-> k ≠ "" /\ exists row, row ∈ rows /\ LLID_num row = k) /\
  (forall sdi, t !! k = Some sdi ->
     exists row, row ∈ rows /\ LLID_num row = k /\
       name sdi = STREAM row /\ trib_to sdi = TRIB_TO row).
Proof.
  intros Hbuild. unfold build_streamlength_adjustment_factor_dictionary in Hbuild.
  apply bind_Ok in Hbuild as (st & Hrows & Hbuild).
  apply bind_Ok in Hbuild as (factors & _ & Hadd).
  destruct (build_rows_streams rows [] build_init st) as (Hnamed & Hall & _); [|done|].
  { split; [|split]; cbn [build_init b_dict b_prev_llid].
    - intros k' sdi. by rewrite lookup_empty.
    - intros row Hrow. by apply elem_of_nil in Hrow.
    - done. }
  cbn [app] in Hnamed, Hall.
  destruct (add_adj_factors_streams _ _ _ _ Hadd k) as [Hdom Hname].
  split; [split|].
  - intros [sdi Hsdi]. destruct (Hname sdi Hsdi) as (sdi0 & Hsdi0 & _).
    destruct (Hnamed k sdi0 Hsdi0) as (Hk & row & Hrow & Hl & _).
    split; [done|]. by exists row.
  - intros (Hk & row & Hrow & <-). apply Hdom. by apply Hall.
  - intros sdi Hsdi. destruct (Hname sdi Hsdi) as (sdi0 & Hsdi0 & Hn & Ht).
    destruct (Hnamed k sdi0 Hsdi0) as (Hk & row & Hrow & Hl & Hn0 & Ht0).
    exists row. split; [done|]. split; [done|]. split; congruence.
Qed.

End BuilderStreams.

Lemma built_streams_witness :
  is_Some (elk_creek (F := Qc) open_end_factors !! "100") <->
  "100" ≠ "" /\ exists row, row ∈ open_end_rows (F := Qc) /\ LLID_num row = "100".
Proof.
  assert (Hbuild : build_streamlength_adjustment_factor_dictionary (GP := streams_north)
                     (open_end_rows (F := Qc)) false = Ok (elk_creek open_end_factors))
    by (vm_compute; reflexivity).
  exact (proj1 (built_streams (GP := streams_north) false open_end_rows _ "100" Hbuild)).
Defined.

(** ** The referencer: the scan of the segments *)

Section ReferencerSurface.
Context {F : Type} {PF : PyFloat F}.
Implicit Types (factors : list (AdjFactor F)) (factor : AdjFactor F)
  (d : gmap string (StreamDistanceInfo F)).



(** X5. The referencer uses the first segment, in the order of the list,
    whose range, both ends included, holds the survey distance: the value is
    the streamline distance of the begin of that segment plus the distance
    from that begin times the factor of the segment, whatever the segments
    after it. *)
Theorem resolve_first_match d (id : string) (sdi : StreamDistanceInfo F)
    (l1 : list (AdjFactor F)) factor (l2 : list (AdjFactor F)) (e : SyncPoint F) (sd : Z) :
  d !! id = Some sdi ->
  adj_factors sdi = l1 ++ factor :: l2 ->
  Forall (misses sd) l1 ->
  af_end factor = Some e ->
  survey_cum_dist (af_begin factor) <= sd <= survey_cum_dist e ->
  resolve d id sd = Ok (from_begin (af_begin factor) sd (af_factor factor)).
Proof.
  intros Hid Hadj Hmiss He Hin. rewrite (resolve_lookup _ _ _ _ Hid), Hadj.
  by apply (adjust_stream_distance_hit sd l1 factor l2 e).
Qed.



End ReferencerSurface.

Lemma resolve_first_match_witness :
  resolve (elk_creek (F := Qc) late_start_factors) "100" 100 =
  Ok (from_begin (xy_point 50 0 50 50) 100 (float_of_int 2)).
Proof.
  apply (resolve_first_match (elk_creek late_start_factors) "100"
           (new_sdi_object "100" "Elk Creek" "Nestucca River" late_start_factors)
           [] (xy_point 50 0 50 50, Some (xy_point 100 0 150 150), float_of_int 2)
           [(xy_point 100 0 150 150, Some (xy_point 200 0 250 250), float_of_int 1)]
           (xy_point 100 0 150 150) 100).
  - reflexivity.
  - reflexivity.
  - constructor.
  - reflexivity.
  - cbn. lia.
Defined.

(** ** The reader: tables read from a file *)

(** The file of a table with the one stream of the examples is read back
    in exact arithmetic. *)
Lemma elk_creek_read_back (factors : list (AdjFactor Qc)) :
  factors ≠ [] ->
  read_sdi_from_csvfile (write_sdi_to_csv_file (elk_creek factors)) =
  Ok (reload_sdi <$> elk_creek factors).
Proof.
  intros Hne. apply (read_write Qc_PyTextLaws).
  - intros Hempty.
    assert (Hnone : elk_creek factors !! "100" = None) by (by rewrite Hempty).
    discriminate Hnone.
  - intros k sdi Hsdi. unfold elk_creek in Hsdi.
    apply lookup_singleton_Some in Hsdi as [<- <-]. by repeat split.
Qed.

Section ReaderTables.
Context {F : Type} {PF : PyFloat F} {PT : PyText F}.
Implicit Types (st : @ReadState F) (d : gmap string (StreamDistanceInfo F)).

Lemma add_adj_factors_same d (k : string) (factors : list (AdjFactor F)) d' :
  (forall sdi, d !! k = Some sdi -> adj_factors sdi = factors) ->
  add_adj_factors_to_sdi d k factors = Ok d' -> d' = d /\ is_Some (d !! k).
Proof.
  intros Hsame Hadd. unfold add_adj_factors_to_sdi, dict_getitem in Hadd.
  destruct (d !! k) as [sdi|] eqn:Hsdi; [|done]. injection Hadd as <-.
  split; [|by eexists]. apply insert_id. rewrite Hsdi. f_equal.
  specialize (Hsame sdi eq_refl). destruct sdi. cbn in Hsame. by subst.
Qed.

Lemma read_row_filled (headings : list string) st (r : list string) st' :
  read_filled st -> read_row headings st r = Ok st' -> read_filled st'.
Proof.
  intros [Hfill Hcur] Hrow. unfold read_row in Hrow.
  apply bind_Ok in Hrow as (row & _ & Hrow).
  apply bind_Ok in Hrow as (new_llid & _ & Hrow).
  apply bind_Ok in Hrow as (st1 & Hst1 & Hrow).
  apply bind_Ok in Hrow as (factor & Hfactor & [= <-]).
  assert (H1 : (forall k sdi, k ≠ r_prev_llid st1 -> r_dict st1 !! k = Some sdi ->
                  adj_factors sdi ≠ [])).
  { destruct (decide (new_llid ≠ r_prev_llid st)); [|injection Hst1 as <-; eauto].
    apply bind_Ok in Hst1 as (d & Hdict & Hst1).
    apply bind_Ok in Hst1 as (streamname & _ & Hst1).
    apply bind_Ok in Hst1 as (trib & _ & [= <-]). cbn [r_dict r_prev_llid].
    assert (Hd : d = r_dict st).
    { destruct (decide (r_prev_llid st ≠ "")); [|by injection Hdict as <-].
      by apply (add_adj_factors_same _ _ _ _ Hcur) in Hdict as [-> _]. }
    subst d. intros k sdi Hk Hsdi. rewrite lookup_insert_ne in Hsdi by done. eauto. }
  split; cbn [r_dict r_prev_llid r_adj_factors].
  - intros k sdi Hsdi. destruct (decide (r_prev_llid st1 = k)) as [Heq|Hne].
    + rewrite Heq, lookup_alter_eq in Hsdi.
      destruct (r_dict st1 !! k) as [sdi1|]; [|done]. injection Hsdi as <-.
      cbn. by destruct (r_adj_factors st1).
    + rewrite lookup_alter_ne in Hsdi by done. by apply (H1 k).
  - intros sdi Hsdi. rewrite lookup_alter_eq in Hsdi.
    destruct (r_dict st1 !! r_prev_llid st1) as [sdi1|]; [|done]. by injection Hsdi as <-.
Qed.

Lemma read_rows_filled (headings : list string) (rows : list (list string)) :
  forall st st', read_filled st -> read_rows headings rows st = Ok st' -> read_filled st'.
Proof.
  induction rows as [|r rows IH]; intros st st' Hfill Hrows.
  - by injection Hrows as <-.
  - cbn [read_rows] in Hrows. apply bind_Ok in Hrows as (st1 & Hrow & Hrows).
    apply (IH st1); [|done]. by apply (read_row_filled headings st r).
Qed.

Lemma read_sdi_filled (sdi_file : list (list string)) d :
  read_sdi_from_csvfile sdi_file = Ok d ->
  d ≠ ∅ /\ forall k sdi, d !! k = Some sdi -> adj_factors sdi ≠ [].
Proof.
  unfold read_sdi_from_csvfile. destruct sdi_file as [|headings rows]; [done|].
  intros Hread. apply bind_Ok in Hread as (st & Hrows & Hadd).
  destruct (read_rows_filled headings rows read_init st) as [Hfill Hcur]; [|done|].
  { split; [intros k sdi|intros sdi]; cbn [read_init r_dict]; by rewrite lookup_empty. }
  apply (add_adj_factors_same _ _ _ _ Hcur) in Hadd as [-> [sdi Hsdi]].
  split; [|done]. intros Hempty. by rewrite Hempty, lookup_empty in Hsdi.
Qed.


End ReaderTables.



(** ** From the survey file to the referencer *)

Section BuiltReferenced.
Context {F : Type} {PF : PyFloat F} {GP : GeometryProvider F}.




Context {PT : PyText F}.


End BuiltReferenced.



(** ** Exact interpolation *)

Section ExactInterpolation.
Implicit Types (b e : SyncPoint Qc).







End ExactInterpolation.


(** ** The loop of the georeferencing script *)

Section GeoreferenceLoop.
Context {F : Type} {PF : PyFloat F} {GP : GeometryProvider F}.
Variable stream_dist_info_dict : gmap string (StreamDistanceInfo F).
Implicit Types (st : @GeorefState F GP) (rows : list (SurveyRow F)) (row : SurveyRow F)
  (points : list (string * F)).






End GeoreferenceLoop.

(** ** The fields of a survey point *)

Lemma count_cell_nonempty (cell : string) : count_cell cell ≠ "".
Proof. unfold count_cell. by destruct (decide (cell = "")). Qed.

Lemma count_cell_twice (cell : string) : count_cell (count_cell cell) = count_cell cell.
Proof.
  unfold count_cell. destruct (decide (cell = "")) as [->|Hne]; [done|].
  by rewrite decide_False.
Qed.

Lemma blank_counts_to_zero_Ok (columns : list nat) : forall fields fields' : list string,
  blank_counts_to_zero columns fields = Ok fields' ->
  length fields' = length fields /\
  Forall (fun i => (i < length fields)%nat) columns /\
  forall i : nat,
    fields' !! i = if decide (i ∈ columns) then count_cell <$> fields !! i
                   else fields !! i.
Proof.
  induction columns as [|c columns IH]; intros fields fields' Hloop.
  - injection Hloop as <-. split; [done|]. split; [constructor|].
    intros i. rewrite decide_False; [done|]. apply not_elem_of_nil.
  - cbn [blank_counts_to_zero] in Hloop.
    destruct (fields !! c) as [cell|] eqn:Hcell; [|done].
    apply IH in Hloop as (Hlen & Hcols & Hget).
    assert (Hlen1 : length (if decide (cell = "") then <[c := "0"]> fields else fields) =
                    length fields).
    { destruct (decide (cell = "")); [apply length_insert|done]. }
    rewrite Hlen1 in Hlen, Hcols. split; [done|]. split.
    + constructor; [|done]. by apply lookup_lt_Some in Hcell.
    + intros i. rewrite Hget.
      assert (Hstep : (if decide (cell = "") then <[c := "0"]> fields else fields) !! i =
                      if decide (i = c) then count_cell <$> fields !! i else fields !! i).
      { destruct (decide (i = c)) as [->|Hne].
        - rewrite Hcell. unfold count_cell. cbn. destruct (decide (cell = "")); [|done].
          apply list_lookup_insert_eq. by apply lookup_lt_Some in Hcell.
        - destruct (decide (cell = "")); [|done]. by apply list_lookup_insert_ne. }
      rewrite Hstep.
      destruct (decide (i = c)) as [->|Hne].
      * rewrite (decide_True (P := c ∈ c :: columns)) by by left.
        destruct (decide (c ∈ columns)); [|done].
        destruct (fields !! c); [|done]. cbn. by rewrite count_cell_twice.
      * destruct (decide (i ∈ columns)) as [Hin|Hnin].
        -- by rewrite (decide_True (P := i ∈ c :: columns)) by by right.
        -- rewrite (decide_False (P := i ∈ c :: columns)); [done|].
           intros Hin. by apply elem_of_cons in Hin as [?|?].
Qed.

Lemma blank_counts_to_zero_raise (columns : list nat) : forall (fields : list string)
    (err : PyError),
  blank_counts_to_zero columns fields = Raise err ->
  err = IndexError /\ exists i, i ∈ columns /\ (length fields <= i)%nat.
Proof.
  induction columns as [|c columns IH]; intros fields err Hloop; [done|].
  cbn [blank_counts_to_zero] in Hloop.
  destruct (fields !! c) as [cell|] eqn:Hcell.
  - apply IH in Hloop as (-> & i & Hi & Hlen). split; [done|]. exists i.
    split; [by right|]. destruct (decide (cell = "")); [|done].
    by rewrite length_insert in Hlen.
  - injection Hloop as <-. split; [done|]. exists c. split; [by left|].
    by apply lookup_ge_None in Hcell.
Qed.

Lemma length_substring_0 (m : nat) : forall s : string,
  String.length (substring 0 m s) = Nat.min m (String.length s).
Proof.
  induction m as [|m IH]; intros [|c s]; cbn [substring String.length Nat.min]; try done.
  by rewrite IH.
Qed.

Lemma string_length_app (s1 s2 : string) :
  String.length (s1 +:+ s2) = (String.length s1 + String.length s2)%nat.
Proof.
  induction s1 as [|c s1 IH]; [done|].
  change (String c s1 +:+ s2) with (String c (s1 +:+ s2)).
  cbn [String.length]. by rewrite IH.
Qed.

Lemma stored_comment_length (comment : string) :
  (String.length (stored_comment comment) <= 254)%nat.
Proof.
  unfold stored_comment. destruct (decide (254 < String.length comment)%nat); [|lia].
  rewrite string_length_app, length_substring_0.
  change (String.length "..") with 2%nat. lia.
Qed.

Section CreatePointFacts.
Context {F G P : Type}.
Variable positionAlongLine : G -> F -> P.

(** X10. The row [create_point_upstream] inserts has the point at the
    given distance along the line and the cells of the survey row without
    its last five, followed by the comment: the survey row has at least 29
    cells; the cells outside the columns 19 to 24 are unchanged; in the
    columns 19 to 24 a blank cell is stored as 0, so that no fish count is
    blank; the last field has at most 254 characters and, for a row of 30
    cells or more, is the comment of the row, cut to its first 252
    characters followed by two dots when it has more than 254. *)
Theorem create_point_upstream_row (line_geom : G) (distance : F)
    (data_row : list (string * string)) (pt_geom : P) (fields : list string) :
  create_point_upstream positionAlongLine line_geom distance data_row =
    Ok (pt_geom, fields) ->
  pt_geom = positionAlongLine line_geom distance /\
  (29 <= length data_row)%nat /\
  length fields = (length data_row - 4)%nat /\
  (forall i : nat, (i < length data_row - 5)%nat -> (i < 19 \/ 24 < i)%nat ->
     fields !! i = data_row.*2 !! i) /\
  (forall i : nat, (19 <= i <= 24)%nat -> (i < length data_row - 5)%nat ->
     fields !! i = count_cell <$> data_row.*2 !! i) /\
  (forall i : nat, (19 <= i <= 24)%nat ->
     exists cell, fields !! i = Some cell /\ cell ≠ "") /\
  (exists comment, last fields = Some comment /\ (String.length comment <= 254)%nat) /\
  (forall comment, (30 <= length data_row)%nat ->
     getattr data_row "COMMENT" = Ok comment ->
     last fields = Some (stored_comment comment)).
Proof.
  intros Hcreate. unfold create_point_upstream in Hcreate.
  apply bind_Ok in Hcreate as (comment & Hcomment & Hcreate).
  apply bind_Ok in Hcreate as (fields1 & Hloop & Hcreate).
  apply bind_Ok in Hcreate as (comment1 & Hlast & Hcreate).
  apply blank_counts_to_zero_Ok in Hloop as (Hlen & Hcols & Hget).
  rewrite length_app, length_take, length_fmap in Hlen, Hcols. cbn [length] in Hlen, Hcols.
  assert (Hrow : (29 <= length data_row)%nat).
  { rewrite Forall_forall in Hcols. specialize (Hcols 24%nat).
    assert (24 ∈ seq 19 6)%nat by (apply elem_of_seq; lia). specialize (Hcols H). lia. }
  assert (Hlast1 : last fields1 = Some comment1).
  { destruct (last fields1) as [c|]; [|done]. by injection Hlast as ->. }
  clear Hlast.
  assert (Hfields : fields = if decide (254 < String.length comment1)%nat
                             then <[pred (length fields1) :=
                                      substring 0 252 comment1 +:+ ".."]> fields1
                             else fields1) by congruence.
  assert (Hpt : pt_geom = positionAlongLine line_geom distance) by congruence.
  clear Hcreate.
  assert (Hlenf : length fields = length fields1).
  { rewrite Hfields. destruct (decide _); [apply length_insert|done]. }
  assert (Hinner : forall i : nat, (i < pred (length fields1))%nat ->
                     fields !! i = fields1 !! i).
  { intros i Hi. rewrite Hfields. destruct (decide _); [|done].
    apply list_lookup_insert_ne. lia. }
  assert (Hlastf : last fields = Some (stored_comment comment1)).
  { rewrite last_lookup, Hlenf, Hfields. unfold stored_comment.
    destruct (decide _).
    - apply list_lookup_insert_eq. lia.
    - by rewrite <- last_lookup. }
  assert (Hcell : forall i : nat, (i < length data_row - 5)%nat ->
            (take (length data_row - 5) data_row.*2 ++ [comment]) !! i = data_row.*2 !! i).
  { intros i Hi. rewrite lookup_app_l by (rewrite length_take, length_fmap; lia).
    by apply lookup_take_lt. }
  split; [done|]. split; [done|]. split; [lia|]. split; [|split; [|split; [|split]]].
  - intros i Hi Hout. rewrite Hinner by lia. rewrite Hget, decide_False, Hcell; [done..|].
    rewrite elem_of_seq. lia.
  - intros i Hi Hin. rewrite Hinner by lia. rewrite Hget, decide_True, Hcell; [done..|].
    rewrite elem_of_seq. lia.
  - intros i Hi.
    assert (Hin : (i ∈ seq 19 6)%nat) by (rewrite elem_of_seq; lia).
    destruct (decide (i < pred (length fields1))%nat) as [Hlt|Hge].
    + rewrite Hinner by done. rewrite Hget, decide_True by done.
      destruct (lookup_lt_is_Some_2 (take (length data_row - 5) data_row.*2 ++ [comment]) i)
        as [cell Hc].
      { rewrite length_app, length_take, length_fmap. cbn [length]. lia. }
      rewrite Hc. exists (count_cell cell). split; [done|apply count_cell_nonempty].
    + assert (Hi' : i = pred (length fields)) by lia.
      rewrite Hi', <- last_lookup, Hlastf. eexists. split; [done|].
      rewrite last_lookup, Hget, decide_True in Hlast1 by (rewrite <- Hlenf, <- Hi'; done).
      destruct (_ !! _) as [cell|]; [|done]. injection Hlast1 as <-.
      unfold stored_comment.
      destruct (decide (254 < String.length (count_cell cell))%nat);
        [|apply count_cell_nonempty].
      destruct (count_cell cell) as [|c s] eqn:Hcc; [cbn in *; lia|done].
  - exists (stored_comment comment1). split; [done|apply stored_comment_length].
  - intros comment' Hlen30 Hc. rewrite Hcomment in Hc. injection Hc as <-.
    rewrite Hlastf. f_equal. f_equal.
    rewrite last_lookup, Hget, decide_False in Hlast1 by (rewrite elem_of_seq; lia).
    rewrite Hlen, Nat.add_1_r, Nat.pred_succ in Hlast1.
    rewrite lookup_app_r in Hlast1 by (rewrite length_take, length_fmap; lia).
    rewrite length_take, length_fmap in Hlast1.
    replace (_ - _)%nat with 0%nat in Hlast1 by lia. by injection Hlast1 as <-.
Qed.

(** X11. [create_point_upstream] raises [AttributeError] exactly when the
    survey row has no column [COMMENT], [IndexError] exactly when it has
    one and fewer than 29 cells, and nothing else. *)
Theorem create_point_upstream_raises (line_geom : G) (distance : F)
    (data_row : list (string * string)) (err : PyError) :
  create_point_upstream positionAlongLine line_geom distance data_row = Raise err <->
  (err = AttributeError /\ getattr data_row "COMMENT" = Raise AttributeError) \/
  (err = IndexError /\ (exists comment, getattr data_row "COMMENT" = Ok comment) /\
   (length data_row < 29)%nat).
Proof.
  unfold create_point_upstream.
  destruct (getattr data_row "COMMENT") as [comment|e] eqn:Hcomment.
  - cbn [mbind Result_bind].
    destruct (blank_counts_to_zero (seq 19 6)
                (take (length data_row - 5) data_row.*2 ++ [comment]))
      as [fields1|e] eqn:Hloop; cbn [mbind Result_bind].
    + apply blank_counts_to_zero_Ok in Hloop as (Hlen & Hcols & _).
      rewrite length_app, length_take, length_fmap in Hlen, Hcols.
      cbn [length] in Hlen, Hcols.
      rewrite Forall_forall in Hcols. specialize (Hcols 24%nat).
      assert (Hin : (24 ∈ seq 19 6)%nat) by (apply elem_of_seq; lia).
      specialize (Hcols Hin).
      destruct (last fields1) as [c|] eqn:Hlast.
      * cbn [mbind Result_bind]. split; [done|]. intros [[_ [=]]|(_ & _ & Hshort)]. lia.
      * apply last_None in Hlast. subst fields1. cbn [length] in Hlen. lia.
    + apply blank_counts_to_zero_raise in Hloop as (-> & i & Hi & Hlen).
      rewrite length_app, length_take, length_fmap in Hlen. cbn [length] in Hlen.
      apply elem_of_seq in Hi. split.
      * intros [= <-]. right. split; [done|]. split; [by exists comment|lia].
      * by intros [[_ [=]]|(-> & _)].
  - assert (e = AttributeError) as ->.
    { clear -Hcomment. induction data_row as [|[h c] row IH]; cbn in Hcomment.
      - by injection Hcomment as <-.
      - destruct (decide (h = "COMMENT")); [done|by apply IH]. }
    cbn [mbind Result_bind]. split.
    + intros [= <-]. by left.
    + intros [[-> _]|(_ & [c [=]] & _)]. done.
Qed.

End CreatePointFacts.

Lemma create_point_upstream_row_witness :
  create_point_upstream (fun (_ : unit) (distance : Qc) => distance) ()
    (float_of_int 825) pool_row = Ok (float_of_int 825, pool_fields) /\
  length pool_fields = (length pool_row - 4)%nat /\
  last pool_fields = Some (stored_comment "deep pool").
Proof.
  assert (Hrun : create_point_upstream (fun (_ : unit) (distance : Qc) => distance) ()
                   (float_of_int 825) pool_row = Ok (float_of_int 825, pool_fields))
    by (vm_compute; reflexivity).
  destruct (create_point_upstream_row _ _ _ _ _ _ Hrun)
    as (_ & _ & Hlen & _ & _ & _ & _ & Hcomment).
  split; [exact Hrun|]. split; [exact Hlen|].
  apply Hcomment; [vm_compute; lia|reflexivity].
Defined.

(** ** The file of a table *)

Lemma string_compare_lt_trans (s1 : string) : forall s2 s3 : string,
  String.compare s1 s2 = Lt -> String.compare s2 s3 = Lt -> String.compare s1 s3 = Lt.
Proof.
  induction s1 as [|c1 s1 IH]; intros [|c2 s2] [|c3 s3]; cbn; try done.
  destruct (Ascii.compare c1 c2) eqn:H12; [|intros _|done].
  - apply Ascii.compare_eq_iff in H12 as ->.
    destruct (Ascii.compare c2 c3); [apply IH|done..].
  - destruct (Ascii.compare c2 c3) eqn:H23; [|intros _|done].
    + apply Ascii.compare_eq_iff in H23 as <-. by rewrite H12.
    + unfold Ascii.compare in *. rewrite N.compare_lt_iff in H12, H23.
      assert (H13 : (N_of_ascii c1 < N_of_ascii c3)%N) by lia.
      apply N.compare_lt_iff in H13. by rewrite H13.
Qed.

#[export] Instance str_le_total : Total str_le.
Proof. intros s1 s2. apply String.leb_total. Qed.

#[export] Instance str_le_trans : Transitive str_le.
Proof.
  intros s1 s2 s3. unfold str_le, String.leb.
  destruct (String.compare s1 s2) eqn:H12; [|intros _|done].
  - by apply String.compare_eq_iff in H12 as ->.
  - destruct (String.compare s2 s3) eqn:H23; [|intros _|done].
    + apply String.compare_eq_iff in H23 as <-. by rewrite H12.
    + by rewrite (string_compare_lt_trans s1 s2 s3).
Qed.

Section WrittenFile.
Context {F : Type} {PF : PyFloat F} {PT : PyText F}.
Implicit Types (t : gmap string (StreamDistanceInfo F)).

Lemma sdi_row_length (stream_id : string) (sdi : StreamDistanceInfo F)
    (factor : AdjFactor F) :
  length (sdi_row stream_id sdi factor) = length fieldnames.
Proof. destruct factor as [[b [e|]] f]; reflexivity. Qed.

Lemma rows_of_length (groups : list (string * StreamDistanceInfo F)) :
  length (rows_of groups) =
  sum_list_with (fun group => length (adj_factors group.2)) groups.
Proof.
  induction groups as [|[k sdi] groups IH]; [done|].
  rewrite rows_of_cons, length_app, length_fmap, IH. done.
Qed.

Lemma groups_of_sorted t : groups_of t (sorted t) ≡ₚ map_to_list t.
Proof.
  destruct (sorted_keys t) as [Hnodup Hkeys].
  apply NoDup_Permutation.
  - apply (NoDup_fmap_1 fst). rewrite groups_of_keys; [done|]. intros k. apply Hkeys.
  - apply NoDup_map_to_list.
  - intros [k sdi]. rewrite groups_of_elem, elem_of_map_to_list, Hkeys.
    split; [by intros [_ ?]|]. intros Hsdi. split; [by exists sdi|done].
Qed.

(** X12. Every row of the file written for a table, the header among
    them, has the 16 cells of the header, and the file has one row for each
    adjustment factor of each stream after its header. *)
Theorem written_file_shape t :
  (forall r, r ∈ write_sdi_to_csv_file t -> length r = length fieldnames) /\
  length (write_sdi_to_csv_file t) =
    S (sum_list_with (fun group => length (adj_factors group.2)) (map_to_list t)).
Proof.
  unfold write_sdi_to_csv_file. rewrite write_rows_groups. split.
  - intros r Hr. apply elem_of_cons in Hr as [->|Hr]; [done|].
    unfold rows_of in Hr. apply list_elem_of_bind in Hr as ([k sdi] & Hr & _).
    apply list_elem_of_fmap in Hr as (factor & -> & _). apply sdi_row_length.
  - cbn [length]. f_equal. rewrite rows_of_length. by rewrite groups_of_sorted.
Qed.

(** X13. After its header the file lists the streams of the table, each
    once and all of them, in the ascending order of their location IDs
    compared byte by byte, the rows of a stream together and in the order
    of its adjustment factors. *)
Theorem written_file_order t :
  exists groups : list (string * StreamDistanceInfo F),
    write_sdi_to_csv_file t = fieldnames :: rows_of groups /\
    StronglySorted str_le groups.*1 /\ NoDup groups.*1 /\
    forall k sdi, (k, sdi) ∈ groups <-> t !! k = Some sdi.
Proof.
  destruct (sorted_keys t) as [Hnodup Hkeys].
  assert (Hfst : (groups_of t (sorted t)).*1 = sorted t).
  { apply groups_of_keys. intros k. apply Hkeys. }
  exists (groups_of t (sorted t)). split; [|split; [|split]].
  - unfold write_sdi_to_csv_file. by rewrite write_rows_groups.
  - rewrite Hfst. unfold sorted. apply (StronglySorted_merge_sort _).
  - by rewrite Hfst.
  - intros k sdi. rewrite groups_of_elem, Hkeys.
    split; [by intros [_ ?]|]. intros Hsdi. split; [by exists sdi|done].
Qed.

End WrittenFile.

(** ** The streams of a table read from a file *)

Section ReaderKeys.
Context {F : Type} {PF : PyFloat F} {PT : PyText F}.
Implicit Types (st : @ReadState F) (d : gmap string (StreamDistanceInfo F)).

Lemma read_row_keys (headings : list string) (done : list (list string)) st
    (r : list string) st' :
  (forall k sdi, r_dict st !! k = Some sdi -> read_from headings done k sdi) ->
  read_row headings st r = Ok st' ->
  forall k sdi, r_dict st' !! k = Some sdi -> read_from headings (done ++ [r]) k sdi.
Proof.
  intros Hkeys Hrow. unfold read_row in Hrow.
  apply bind_Ok in Hrow as (row & HRow & Hrow).
  apply bind_Ok in Hrow as (new_llid & Hllid & Hrow).
  apply bind_Ok in Hrow as (st1 & Hst1 & Hrow).
  apply bind_Ok in Hrow as (factor & Hfactor & [= <-]).
  assert (Hweaken : forall k (sdi : StreamDistanceInfo F), read_from headings done k sdi ->
                      read_from headings (done ++ [r]) k sdi).
  { intros k sdi (Hq & Hl & r0 & row0 & Hr0 & Hrest). split; [done|]. split; [done|].
    exists r0, row0. split; [apply elem_of_app; by left|done]. }
  assert (H1 : forall k sdi, r_dict st1 !! k = Some sdi ->
                 read_from headings (done ++ [r]) k sdi).
  { destruct (decide (new_llid ≠ r_prev_llid st)); [|injection Hst1 as <-; eauto].
    apply bind_Ok in Hst1 as (d & Hdict & Hst1).
    apply bind_Ok in Hst1 as (streamname & Hname & Hst1).
    apply bind_Ok in Hst1 as (trib & Htrib & [= <-]). cbn [r_dict].
    assert (Hd : forall k sdi, d !! k = Some sdi -> read_from headings done k sdi).
    { destruct (decide (r_prev_llid st ≠ "")); [|injection Hdict as <-; eauto].
      unfold add_adj_factors_to_sdi, dict_getitem in Hdict.
      destruct (r_dict st !! r_prev_llid st) as [sdi0|] eqn:Hsdi0; [|done].
      injection Hdict as <-. intros k sdi Hsdi.
      destruct (decide (r_prev_llid st = k)) as [<-|Hne].
      - rewrite lookup_insert_eq in Hsdi. injection Hsdi as <-.
        exact (Hkeys _ _ Hsdi0).
      - rewrite lookup_insert_ne in Hsdi by done. eauto. }
    intros k sdi Hsdi. destruct (decide (new_llid = k)) as [<-|Hne].
    - rewrite lookup_insert_eq in Hsdi. injection Hsdi as <-.
      split; [|split; [done|]].
      + unfold read_llid in Hllid. apply bind_Ok in Hllid as (c & _ & [= <-]).
        apply replace_quote_clean.
      + exists r, row. split; [apply elem_of_app; right; by left|done].
    - rewrite lookup_insert_ne in Hsdi by done. eauto. }
  intros k sdi Hsdi. cbn [r_dict] in Hsdi.
  destruct (decide (r_prev_llid st1 = k)) as [<-|Hne].
  - rewrite lookup_alter_eq in Hsdi.
    destruct (r_dict st1 !! r_prev_llid st1) as [sdi1|] eqn:Hsdi1; [|done].
    injection Hsdi as <-. exact (H1 _ _ Hsdi1).
  - rewrite lookup_alter_ne in Hsdi by done. eauto.
Qed.

Lemma read_rows_keys (headings : list string) (rows : list (list string)) :
  forall (done : list (list string)) st st',
  (forall k sdi, r_dict st !! k = Some sdi -> read_from headings done k sdi) ->
  read_rows headings rows st = Ok st' ->
  forall k sdi, r_dict st' !! k = Some sdi -> read_from headings (done ++ rows) k sdi.
Proof.
  induction rows as [|r rows IH]; intros done st st' Hkeys Hrows.
  - injection Hrows as <-. by rewrite app_nil_r.
  - cbn [read_rows] in Hrows. apply bind_Ok in Hrows as (st1 & Hrow & Hrows).
    replace (done ++ r :: rows) with ((done ++ [r]) ++ rows) by by rewrite <- app_assoc.
    apply (IH _ st1); [|done]. by apply (read_row_keys headings done st r).
Qed.

Lemma read_sdi_keys (headings : list string) (rows : list (list string)) d
    (k : string) (sdi : StreamDistanceInfo F) :
  read_sdi_from_csvfile (headings :: rows) = Ok d ->
  d !! k = Some sdi -> read_from headings rows k sdi.
Proof.
  intros Hread Hsdi. cbn [read_sdi_from_csvfile] in Hread.
  apply bind_Ok in Hread as (st & Hrows & Hadd).
  pose proof (read_rows_keys headings rows [] read_init st) as Hkeys.
  cbn [app] in Hkeys.
  assert (Hinit : forall k sdi, r_dict (read_init (F := F)) !! k = Some sdi ->
                    read_from headings [] k sdi).
  { intros k' sdi'. cbn [read_init r_dict]. by rewrite lookup_empty. }
  specialize (Hkeys Hinit Hrows).
  unfold add_adj_factors_to_sdi, dict_getitem in Hadd.
  destruct (r_dict st !! r_prev_llid st) as [sdi0|] eqn:Hsdi0; [|done].
  injection Hadd as <-.
  destruct (decide (r_prev_llid st = k)) as [<-|Hne].
  - rewrite lookup_insert_eq in Hsdi. injection Hsdi as <-. exact (Hkeys _ _ Hsdi0).
  - rewrite lookup_insert_ne in Hsdi by done. exact (Hkeys _ _ Hsdi).
Qed.

(** X15. Every entry of a table read from a file is under a location ID
    without quote, holds that location ID, and has the stream name and the
    tributary name of a row of the file whose location ID cell, its quotes
    removed, is that location ID. *)
Theorem read_table_streams (headings : list string) (rows : list (list string)) d
    (k : string) (sdi : StreamDistanceInfo F) :
  read_sdi_from_csvfile (headings :: rows) = Ok d ->
  d !! k = Some sdi ->
  has_quote k = false /\ llid sdi = k /\
  exists r row, r ∈ rows /\ Row headings r = Ok row /\
    read_llid row = Ok k /\
    getattr row STREAMNAME = Ok (name sdi) /\ getattr row TRIB_TO_ = Ok (trib_to sdi).
Proof.
  intros Hread Hsdi. cbn [read_sdi_from_csvfile] in Hread.
  apply bind_Ok in Hread as (st & Hrows & Hadd).
  assert (Hinit : forall k' (sdi' : StreamDistanceInfo F),
            r_dict (read_init (F := F)) !! k' = Some sdi' ->
            read_from headings [] k' sdi').
  { intros k' sdi'. cbn [read_init r_dict]. by rewrite lookup_empty. }
  pose proof (read_rows_keys headings rows [] read_init st Hinit Hrows) as Hkeys.
  cbn [app] in Hkeys.
  unfold add_adj_factors_to_sdi, dict_getitem in Hadd.
  destruct (r_dict st !! r_prev_llid st) as [sdi0|] eqn:Hsdi0; [|done].
  injection Hadd as <-.
  destruct (decide (r_prev_llid st = k)) as [<-|Hne].
  - rewrite lookup_insert_eq in Hsdi. injection Hsdi as <-. exact (Hkeys _ _ Hsdi0).
  - rewrite lookup_insert_ne in Hsdi by done. exact (Hkeys _ _ Hsdi).
Qed.

Lemma reload_ended (factors : list (AdjFactor F)) :
  all_ended factors -> reload_adj_factor <$> factors = factors.
Proof.
  induction 1 as [|[[b e] f] factors [e' He] _ IH]; [done|].
  rewrite fmap_cons, IH. cbn in He. subst e. done.
Qed.

(** X16. A table read from a file, when it has no entry under the empty
    location ID, is read back as it is from the file written for it,
    provided reading back the text of a number gives that number. *)
Theorem read_table_stable (sdi_file : list (list string)) d :
  PyTextLaws F ->
  read_sdi_from_csvfile sdi_file = Ok d ->
  d !! "" = None ->
  read_sdi_from_csvfile (write_sdi_to_csv_file d) = Ok d.
Proof.
  intros laws Hread Hempty.
  destruct (read_sdi_filled sdi_file d Hread) as [Hne Hfill].
  pose proof (read_sdi_ended sdi_file d Hread) as Hended.
  destruct sdi_file as [|headings rows]; [done|].
  assert (Hkeys : forall k sdi, d !! k = Some sdi -> has_quote k = false /\ llid sdi = k).
  { intros k sdi Hsdi.
    by destruct (read_sdi_keys headings rows d k sdi Hread Hsdi) as (Hq & Hl & _). }
  rewrite (read_write laws d Hne).
  - f_equal. apply map_eq. intros k. rewrite lookup_fmap.
    destruct (d !! k) as [sdi|] eqn:Hsdi; [|done]. cbn. f_equal.
    unfold reload_sdi. rewrite (reload_ended _ (Hended k sdi Hsdi)).
    by destruct sdi.
  - intros k sdi Hsdi. destruct (Hkeys k sdi Hsdi) as [Hq Hl].
    split; [done|]. split; [|split; [done|by apply (Hfill k)]].
    cbn. intros ->. congruence.
Qed.

End ReaderKeys.

Lemma read_table_streams_witness :
  has_quote "100" = false /\
  llid (reload_sdi (new_sdi_object "100" "Elk Creek" "Nestucca River"
                      (open_end_factors (F := Qc)))) = "100".
Proof.
  destruct (read_table_streams fieldnames
              (sorted (elk_creek (F := Qc) open_end_factors) ≫=
                 sdi_rows (elk_creek open_end_factors))
              (reload_sdi <$> elk_creek open_end_factors) "100"
              (reload_sdi (new_sdi_object "100" "Elk Creek" "Nestucca River"
                             open_end_factors)))
    as (Hquote & Hllid & _).
  - exact (elk_creek_read_back open_end_factors ltac:(discriminate)).
  - reflexivity.
  - split; [exact Hquote|exact Hllid].
Defined.

Lemma read_table_stable_witness :
  read_sdi_from_csvfile
    (write_sdi_to_csv_file (reload_sdi <$> elk_creek (F := Qc) open_end_factors)) =
  Ok (reload_sdi <$> elk_creek open_end_factors).
Proof.
  apply (read_table_stable (write_sdi_to_csv_file (elk_creek (F := Qc) open_end_factors))).
  - exact Qc_PyTextLaws.
  - apply elk_creek_read_back. discriminate.
  - reflexivity.
Defined.
